(** * Tiered conversational memory engine (Assignment 6)

    A shallow embedding of [memory_logic.py] and of the [chat] endpoint of
    [api_endpoints.py], with the properties of the memory engine proved
    about it.

    Conventions of the embedding

    - A Python [str] is a [string]; its characters are read as the code
      points 0..255, so [len] is [String.length].
    - A Python [float] that the code only stores and compares (importance
      scores, similarity scores, embedding components) is the rational it
      denotes, in [Q]; the literals 0.4, 0.5, 0.6 and 0.8 are the rationals
      they are written as.
    - A MongoDB collection is the list of its documents in insertion order
      (the natural order of a scan); [sort("created_at", -1)] is a stable
      descending sort of that list.  The store is taken to answer every
      call: the only exception of the model is the [ValueError] of a
      negative [to_list] length.
    - The clock, the two Ollama endpoints and numpy's random generator are
      inputs of the program: an [Env] gives the answer of each of them at
      every tick, and the [World] counts the ticks consumed so far.  The
      generation endpoint either fails or answers with a text in its
      ["response"] field, as Ollama does; an answer whose field holds
      another JSON value ([null], a number) is outside the model.
    - A request is handled from its first step to its last before the next
      one starts: the steps of two turns never interleave.
    - The numeric value computed by scikit-learn's [cosine_similarity] is a
      parameter of the functions that rank episodes; the module [F64]
      computes it on binary64 numbers, where the properties of the score
      itself are stated. *)

From Stdlib Require Import List String Ascii ZArith QArith Bool Arith Lia.
From Stdlib Require Import Sorted Permutation.
From Stdlib Require PrimFloat.
Import ListNotations.

Local Open Scope string_scope.
Local Open Scope Z_scope.

(** ** Python string primitives *)

Module PyStr.

(** [str.isspace] on one character of the range 0..255. *)
Definition is_space (c : ascii) : bool :=
  let n := nat_of_ascii c in
  ((9 <=? n) && (n <=? 13) || (28 <=? n) && (n <=? 32)
   || (n =? 133) || (n =? 160))%nat.

(** [str.lower] on one character of the range 0..255. *)
Definition lower_char (c : ascii) : ascii :=
  let n := nat_of_ascii c in
  if ((65 <=? n) && (n <=? 90)
      || (192 <=? n) && (n <=? 222) && negb (n =? 215))%nat
  then ascii_of_nat (n + 32) else c.

Fixpoint lower (s : string) : string :=
  match s with
  | EmptyString => EmptyString
  | String c s' => String (lower_char c) (lower s')
  end.

Fixpoint lstrip (s : string) : string :=
  match s with
  | EmptyString => EmptyString
  | String c s' => if is_space c then lstrip s' else s
  end.

Fixpoint rstrip (s : string) : string :=
  match s with
  | EmptyString => EmptyString
  | String c s' =>
      match rstrip s' with
      | EmptyString => if is_space c then EmptyString else String c EmptyString
      | r => String c r
      end
  end.

(** [s.strip()] *)
Definition strip (s : string) : string := rstrip (lstrip s).

(** [s.split(sep)] for a one-character separator: the pieces between the
    separators, the empty ones included. *)
Fixpoint split (sep : ascii) (s : string) : list string :=
  match s with
  | EmptyString => [EmptyString]
  | String c s' =>
      if Ascii.eqb c sep then EmptyString :: split sep s'
      else match split sep s' with
           | [] => [String c EmptyString]
           | p :: ps => String c p :: ps
           end
  end.

(** [w in s] *)
Fixpoint contains (w s : string) : bool :=
  if String.prefix w s then true
  else match s with
       | EmptyString => false
       | String _ s' => contains w s'
       end.

(** [sep.join(parts)] *)
Fixpoint join (sep : string) (parts : list string) : string :=
  match parts with
  | [] => EmptyString
  | [p] => p
  | p :: ps => p ++ sep ++ join sep ps
  end.

(** [any(word in s for word in words)] *)
Definition any_in (words : list string) (s : string) : bool :=
  existsb (fun word => contains word s) words.

Definition newline : string := String (ascii_of_nat 10) EmptyString.

End PyStr.

(** What the spec calls containment: the keyword occurs somewhere in the
    text, whatever surrounds it. *)
Definition Occurs (w s : string) : Prop :=
  exists pre post, s = pre ++ w ++ post.

(** ** Session ids *)

(** The session id of a request is a string, or [None] when the client
    sends null; [a == b] on such values, which is also how the store matches
    a filter on the field. *)
Definition session_eqb (a b : option string) : bool :=
  match a, b with
  | Some x, Some y => String.eqb x y
  | None, None => true
  | _, _ => false
  end.

(** ** Documents of the three collections *)

Module Message.
Record t := mk {
  user_id : string;
  session_id : option string;
  role : string;
  content : string;
  created_at : Z
}.
End Message.

Module Summary.
Record t := mk {
  user_id : string;
  session_id : option string;
  scope : string;
  text : string;
  created_at : Z
}.
End Summary.

Module Episode.
Record t := mk {
  user_id : string;
  session_id : option string;
  fact : string;
  importance : Q;
  embedding : list Q;
  created_at : Z
}.
End Episode.

(** An episode read back by the ranker, with the ['similarity'] key that
    [get_relevant_episodes] adds to the fetched dict. *)
Record ScoredEpisode := {
  episode : Episode.t;
  similarity : Q
}.

(** ** Constants of [memory_logic.py] *)

Definition SHORT_TERM_N : Z := 16.
Definition SUMMARIZE_EVERY_USER_MSGS : Z := 5.
Definition CHAT_MODEL : string := "phi3:mini".
Definition EMBED_MODEL : string := "nomic-embed-text".
Definition TOP_K_EPISODES : Z := 5.

Definition apology : string :=
  "I'm sorry, I'm having trouble processing your request right now.".

(** ** The world outside the program *)

Record Env := {
  (** [datetime.utcnow()] read at a tick *)
  utcnow : nat -> Z;
  (** POST /api/generate with a model and a prompt at a tick: the
      ["response"] field, taken to be a text, or [None] when the request,
      the status check or the decoding raises *)
  post_generate : nat -> string -> string -> option string;
  (** POST /api/embeddings with a model and a text at a tick *)
  post_embeddings : nat -> string -> string -> option (list Q);
  (** the i-th component of [np.random.rand(n)] drawn at a tick *)
  random_rand : nat -> nat -> Q;
  (** scikit-learn's cosine similarity of two rows of the same, positive
      dimension *)
  cosine_value : list Q -> list Q -> Q
}.

Record World := {
  messages_collection : list Message.t;
  summaries_collection : list Summary.t;
  episodes_collection : list Episode.t;
  ticks : nat
}.

(** ** Computations: state and exceptions *)

Inductive Exn :=
| ValueError (msg : string).

Definition str_of_exn (e : Exn) : string :=
  match e with ValueError msg => msg end.

Inductive Outcome (A : Type) :=
| Returned (a : A)
| Raised (e : Exn).
Arguments Returned {A} a.
Arguments Raised {A} e.

Definition M (A : Type) : Type := World -> Outcome A * World.

Definition ret {A} (a : A) : M A := fun w => (Returned a, w).

Definition bind {A B} (m : M A) (f : A -> M B) : M B :=
  fun w =>
    match m w with
    | (Returned a, w') => f a w'
    | (Raised e, w') => (Raised e, w')
    end.

Definition raise {A} (e : Exn) : M A := fun w => (Raised e, w).

(** [try: body except Exception as e: handler(e)]; what the body wrote
    before raising stays written. *)
Definition try_except {A} (body : M A) (handler : Exn -> M A) : M A :=
  fun w =>
    match body w with
    | (Returned a, w') => (Returned a, w')
    | (Raised e, w') => handler e w'
    end.

Declare Scope monad_scope.
Delimit Scope monad_scope with monad.
Notation "x <- m ;; k" := (bind m (fun x => k))
  (at level 61, m at next level, right associativity) : monad_scope.
Notation "m ;; k" := (bind m (fun _ => k))
  (at level 61, right associativity) : monad_scope.
Local Open Scope monad_scope.

(** One consultation of the outside world. *)
Definition tick : M nat :=
  fun w => (Returned (ticks w),
            {| messages_collection := messages_collection w;
               summaries_collection := summaries_collection w;
               episodes_collection := episodes_collection w;
               ticks := S (ticks w) |}).

Definition find_messages : M (list Message.t) :=
  fun w => (Returned (messages_collection w), w).
Definition find_summaries : M (list Summary.t) :=
  fun w => (Returned (summaries_collection w), w).
Definition find_episodes : M (list Episode.t) :=
  fun w => (Returned (episodes_collection w), w).

Definition insert_message (d : Message.t) : M unit :=
  fun w => (Returned tt,
            {| messages_collection := messages_collection w ++ [d];
               summaries_collection := summaries_collection w;
               episodes_collection := episodes_collection w;
               ticks := ticks w |}).

Definition insert_summary (d : Summary.t) : M unit :=
  fun w => (Returned tt,
            {| messages_collection := messages_collection w;
               summaries_collection := summaries_collection w ++ [d];
               episodes_collection := episodes_collection w;
               ticks := ticks w |}).

Definition insert_episode (d : Episode.t) : M unit :=
  fun w => (Returned tt,
            {| messages_collection := messages_collection w;
               summaries_collection := summaries_collection w;
               episodes_collection := episodes_collection w ++ [d];
               ticks := ticks w |}).

(** ** Sorting and slicing *)

(** A stable sort into descending order: [ge x y] says that [x] may stand
    before [y].  It is the order of [list.sort(key=..., reverse=True)] and
    of the store's [sort(field, -1)]. *)
Fixpoint insert_desc {A} (ge : A -> A -> bool) (x : A) (l : list A) : list A :=
  match l with
  | [] => [x]
  | y :: l' => if ge x y then x :: l else y :: insert_desc ge x l'
  end.

Definition sort_desc {A} (ge : A -> A -> bool) (l : list A) : list A :=
  fold_right (insert_desc ge) [] l.

(** [l[:k]] *)
Definition slice_to {A} (l : list A) (k : Z) : list A :=
  if k <? 0 then firstn (List.length l - Z.to_nat (- k)) l
  else firstn (Z.to_nat k) l.

(** The last [n] elements of a list. *)
Definition lastn {A} (n : nat) (l : list A) : list A :=
  skipn (List.length l - n) l.

Definition newer_message (a b : Message.t) : bool :=
  Message.created_at b <=? Message.created_at a.
Definition newer_summary (a b : Summary.t) : bool :=
  Summary.created_at b <=? Summary.created_at a.
Definition more_similar (a b : ScoredEpisode) : bool :=
  Qle_bool (similarity b) (similarity a).

(** ** Requests and responses of the [chat] endpoint *)

(** The body of a request; [session_id], declared [Optional[str] =
    "default"], is [Some "default"] when the client leaves the field out and
    [None] when it sends null. *)
Module ChatRequest.
Record t := mk {
  user_id : string;
  session_id : option string;
  message : string
}.
End ChatRequest.

Record LongTermSummaries := {
  lt_session : option string;
  lt_lifetime : option string
}.

Record MemoryUsed := {
  short_term_count : Z;
  long_term_summary : option string;
  session_summary : option string;
  episodic_facts : list (string * Q)
}.

Record ChatResponse := {
  reply : string;
  memory_used : MemoryUsed
}.

Inductive HttpResult :=
| Http200 (body : ChatResponse)
| Http500 (detail : string).

(** Truth value of an optional string in an [if]. *)
Definition truthy (o : option string) : bool :=
  match o with
  | Some EmptyString => false
  | Some _ => true
  | None => false
  end.

Definition Z_len {A} (l : list A) : Z := Z.of_nat (List.length l).

(** ** [memory_logic.py] *)

Section MemoryLogic.

Variable env : Env.

Definition get_ollama_response (prompt : string) : M string :=
  k <- tick ;;
  match post_generate env k CHAT_MODEL prompt with
  | Some response => ret response
  | None => ret apology
  end.

Definition get_embedding (text : string) : M (list Q) :=
  k <- tick ;;
  match post_embeddings env k EMBED_MODEL text with
  | Some embedding => ret embedding
  | None => ret (map (random_rand env k) (seq 0 384))
  end.

(** [cosine_similarity(vec1, vec2)[0][0]] on two 1-by-n rows: the library
    raises when the rows have no feature or differ in dimension. *)
Definition sklearn_cosine_similarity (vec1 vec2 : list Q) : option Q :=
  if ((0 <? List.length vec1) && (List.length vec1 =? List.length vec2))%nat
  then Some (cosine_value env vec1 vec2) else None.

Definition cosine_similarity_score (embedding1 embedding2 : list Q) : Q :=
  match sklearn_cosine_similarity embedding1 embedding2 with
  | Some v => v
  | None => 0%Q
  end.

Definition datetime_utcnow : M Z :=
  k <- tick ;; ret (utcnow env k).

Definition save_message (user_id : string) (session_id : option string) (role content : string) : M unit :=
  now <- datetime_utcnow ;;
  insert_message (Message.mk user_id session_id role content now).

Definition in_session (user_id : string) (session_id : option string) (m : Message.t) : bool :=
  String.eqb (Message.user_id m) user_id
  && session_eqb (Message.session_id m) session_id.

(** [to_list(length=limit)] refuses a negative length before the query is
    sent; [limit(limit)] followed by [to_list(length=limit)] keeps the first
    [limit] documents of the sorted cursor. *)
Definition get_short_term_messages (user_id : string) (session_id : option string) (limit : Z)
  : M (list Message.t) :=
  if limit <? 0 then raise (ValueError "length must be non-negative")
  else
    docs <- find_messages ;;
    let messages :=
      firstn (Z.to_nat limit)
        (sort_desc newer_message (filter (in_session user_id session_id) docs)) in
    ret (rev messages).

Definition session_digest_of (user_id : string) (session_id : option string) (s : Summary.t) : bool :=
  String.eqb (Summary.user_id s) user_id
  && session_eqb (Summary.session_id s) session_id
  && String.eqb (Summary.scope s) "session".

Definition user_digest_of (user_id : string) (s : Summary.t) : bool :=
  String.eqb (Summary.user_id s) user_id
  && String.eqb (Summary.scope s) "user".

Definition get_long_term_summaries (user_id : string) (session_id : option string)
  : M LongTermSummaries :=
  docs <- find_summaries ;;
  let session_summary :=
    hd_error (sort_desc newer_summary
                (filter (session_digest_of user_id session_id) docs)) in
  let lifetime_summary :=
    hd_error (sort_desc newer_summary (filter (user_digest_of user_id) docs)) in
  ret {| lt_session := option_map Summary.text session_summary;
         lt_lifetime := option_map Summary.text lifetime_summary |}.

Definition user_turn_of (user_id : string) (session_id : option string) (m : Message.t) : bool :=
  in_session user_id session_id m && String.eqb (Message.role m) "user".

Definition should_summarize (user_id : string) (session_id : option string) : M bool :=
  docs <- find_messages ;;
  let user_message_count := Z_len (filter (user_turn_of user_id session_id) docs) in
  ret (user_message_count mod SUMMARIZE_EVERY_USER_MSGS =? 0).

Definition render_turn (msg : Message.t) : string :=
  Message.role msg ++ ": " ++ Message.content msg.

Definition generate_session_summary (user_id : string) (session_id : option string) : M string :=
  docs <- find_messages ;;
  let recent_messages :=
    firstn 20 (sort_desc newer_message
                 (filter (in_session user_id session_id) docs)) in
  match recent_messages with
  | [] => ret ""
  | _ =>
      let conversation :=
        PyStr.join PyStr.newline (map render_turn (rev recent_messages)) in
      let prompt :=
        "Summarize the following conversation into key points:"
        ++ PyStr.newline ++ PyStr.newline ++ conversation
        ++ PyStr.newline ++ PyStr.newline
        ++ "Provide a concise summary with 3-5 bullet points:" in
      summary <- get_ollama_response prompt ;;
      now <- datetime_utcnow ;;
      insert_summary (Summary.mk user_id session_id "session" summary now) ;;
      ret summary
  end.

Definition session_scope_of (user_id : string) (s : Summary.t) : bool :=
  String.eqb (Summary.user_id s) user_id
  && String.eqb (Summary.scope s) "session".

Definition update_lifetime_summary (user_id : string) : M string :=
  docs <- find_summaries ;;
  let session_summaries :=
    firstn 5 (sort_desc newer_summary (filter (session_scope_of user_id) docs)) in
  match session_summaries with
  | [] => ret ""
  | _ =>
      let combined_summaries :=
        PyStr.join (PyStr.newline ++ PyStr.newline)
          (map Summary.text session_summaries) in
      let prompt :=
        "Create a lifetime user profile summary from these session summaries:"
        ++ PyStr.newline ++ PyStr.newline ++ combined_summaries
        ++ PyStr.newline ++ PyStr.newline
        ++ "Provide a concise user profile with key characteristics and preferences:" in
      lifetime_summary <- get_ollama_response prompt ;;
      now <- datetime_utcnow ;;
      insert_summary (Summary.mk user_id None "user" lifetime_summary now) ;;
      ret lifetime_summary
  end.

Definition tier1_words : list string :=
  ["important"; "remember"; "always"; "never"; "love"; "hate"].
Definition tier2_words : list string :=
  ["like"; "prefer"; "want"; "need"].

(** The scoring block of the loop of [extract_episodes]. *)
Definition score_importance (sentence : string) : Q :=
  let importance := 0.5%Q in
  if PyStr.any_in tier1_words (PyStr.lower sentence) then 0.8%Q
  else if PyStr.any_in tier2_words (PyStr.lower sentence) then 0.6%Q
  else importance.

Definition length_gate (sentence : string) : bool :=
  ((10 <? String.length sentence) && (String.length sentence <? 200))%nat.

Definition Qgt_bool (a b : Q) : bool := negb (Qle_bool a b).

(** The [for sentence in sentences] loop, with [facts] as built so far. *)
Fixpoint extract_loop (user_id : string) (session_id : option string) (sentences : list string)
  (facts : list Episode.t) : M (list Episode.t) :=
  match sentences with
  | [] => ret facts
  | sentence :: rest =>
      let sentence := PyStr.strip sentence in
      if length_gate sentence then
        let importance := score_importance sentence in
        if Qgt_bool importance 0.4%Q then
          embedding <- get_embedding sentence ;;
          now <- datetime_utcnow ;;
          let episode :=
            Episode.mk user_id session_id sentence importance embedding now in
          insert_episode episode ;;
          extract_loop user_id session_id rest (facts ++ [episode])
        else extract_loop user_id session_id rest facts
      else extract_loop user_id session_id rest facts
  end.

Definition extract_episodes (user_id : string) (session_id : option string) (message : string)
  : M (list Episode.t) :=
  let facts := [] in
  let sentences := PyStr.split "." message in
  extract_loop user_id session_id sentences facts.

Definition score_episode (message_embedding : list Q) (e : Episode.t)
  : ScoredEpisode :=
  {| episode := e;
     similarity := cosine_similarity_score message_embedding (Episode.embedding e) |}.

Definition get_relevant_episodes (user_id message : string) (top_k : Z)
  : M (list ScoredEpisode) :=
  message_embedding <- get_embedding message ;;
  docs <- find_episodes ;;
  let episodes :=
    filter (fun e => String.eqb (Episode.user_id e) user_id) docs in
  let episodes := map (score_episode message_embedding) episodes in
  let episodes := sort_desc more_similar episodes in
  ret (slice_to episodes top_k).

Definition build_prompt (system_primer : string)
  (long_term_summaries : LongTermSummaries)
  (short_term_messages : list Message.t) (current_message : string)
  (episodic_facts : list ScoredEpisode) : string :=
  let prompt_parts := [system_primer] in
  let prompt_parts :=
    if truthy (lt_lifetime long_term_summaries)
    then (prompt_parts ++ [("User Profile: "
           ++ match lt_lifetime long_term_summaries with Some t => t | None => "" end)%string])%list
    else prompt_parts in
  let prompt_parts :=
    if truthy (lt_session long_term_summaries)
    then (prompt_parts ++ [("Session Context: "
           ++ match lt_session long_term_summaries with Some t => t | None => "" end)%string])%list
    else prompt_parts in
  let prompt_parts :=
    match short_term_messages with
    | [] => prompt_parts
    | _ =>
        let conversation :=
          PyStr.join PyStr.newline (map render_turn short_term_messages) in
        (prompt_parts
         ++ [("Recent conversation:" ++ PyStr.newline ++ conversation)%string])%list
    end in
  let prompt_parts := (prompt_parts ++ [("User: " ++ current_message)%string])%list in
  let prompt_parts :=
    match episodic_facts with
    | [] => prompt_parts
    | _ =>
        let facts_text :=
          PyStr.join PyStr.newline
            (map (fun fact => "- " ++ Episode.fact (episode fact)) episodic_facts) in
        (prompt_parts
         ++ [("Relevant facts:" ++ PyStr.newline ++ facts_text)%string])%list
    end in
  PyStr.join (PyStr.newline ++ PyStr.newline) prompt_parts.

(** ** The [chat] endpoint of [api_endpoints.py] *)

Definition system_primer : string :=
  "You are a helpful AI assistant with memory. Use the provided context and facts to give personalized responses.".

Definition chat (request : ChatRequest.t) : M HttpResult :=
  let user_id := ChatRequest.user_id request in
  let session_id := ChatRequest.session_id request in
  let message := ChatRequest.message request in
  try_except
    (save_message user_id session_id "user" message ;;
     short_term_messages <- get_short_term_messages user_id session_id SHORT_TERM_N ;;
     long_term_summaries <- get_long_term_summaries user_id session_id ;;
     episodes <- extract_episodes user_id session_id message ;;
     relevant_episodes <- get_relevant_episodes user_id message TOP_K_EPISODES ;;
     let prompt :=
       build_prompt system_primer long_term_summaries short_term_messages
         message relevant_episodes in
     reply <- get_ollama_response prompt ;;
     save_message user_id session_id "assistant" reply ;;
     fire <- should_summarize user_id session_id ;;
     (if fire then
        generate_session_summary user_id session_id ;;
        if Z_len short_term_messages mod 5 =? 0
        then update_lifetime_summary user_id ;; ret tt
        else ret tt
      else ret tt) ;;
     let memory_used :=
       {| short_term_count := Z_len short_term_messages;
          long_term_summary := lt_lifetime long_term_summaries;
          session_summary := lt_session long_term_summaries;
          episodic_facts :=
            map (fun ep => (Episode.fact (episode ep),
                            Episode.importance (episode ep)))
              relevant_episodes |} in
     ret (Http200 {| reply := reply; memory_used := memory_used |}))
    (fun e => ret (Http500 (str_of_exn e))).

End MemoryLogic.

(** ** Vocabulary of the statements *)

(** The scoring rule as the specification words it: three buckets in
    precedence order over the lowercased sentence. *)
Inductive importance_rule (sentence : string) : Q -> Prop :=
| rule_strong (w : string) :
    In w ["important"; "remember"; "always"; "never"; "love"; "hate"] ->
    Occurs w (PyStr.lower sentence) ->
    importance_rule sentence 0.8%Q
| rule_mild (w : string) :
    (forall w1, In w1 ["important"; "remember"; "always"; "never"; "love"; "hate"] ->
                ~ Occurs w1 (PyStr.lower sentence)) ->
    In w ["like"; "prefer"; "want"; "need"] ->
    Occurs w (PyStr.lower sentence) ->
    importance_rule sentence 0.6%Q
| rule_default :
    (forall w1, In w1 ["important"; "remember"; "always"; "never"; "love"; "hate"] ->
                ~ Occurs w1 (PyStr.lower sentence)) ->
    (forall w2, In w2 ["like"; "prefer"; "want"; "need"] ->
                ~ Occurs w2 (PyStr.lower sentence)) ->
    importance_rule sentence 0.5%Q.

(** The candidate sentences of a message: its pieces between full stops,
    trimmed, that pass the length gate. *)
Definition candidates (message : string) : list string :=
  filter length_gate (map PyStr.strip (PyStr.split "." message)).

(** What [get_ollama_response] hands back when it asks at tick [k]. *)
Definition generated (env : Env) (k : nat) (prompt : string) : string :=
  match post_generate env k CHAT_MODEL prompt with
  | Some response => response
  | None => apology
  end.

(** What [get_embedding] hands back when it asks at tick [k]. *)
Definition embedded (env : Env) (k : nat) (text : string) : list Q :=
  match post_embeddings env k EMBED_MODEL text with
  | Some embedding => embedding
  | None => map (random_rand env k) (seq 0 384)
  end.

(** The turns of one (user, session) partition, in insertion order. *)
Definition partition (user_id : string) (session_id : option string) (w : World) : list Message.t :=
  filter (in_session user_id session_id) (messages_collection w).

(** Turns stamped in strictly increasing order. *)
Definition chronological (l : list Message.t) : Prop :=
  StronglySorted (fun a b => Message.created_at a < Message.created_at b) l.

(** A clock that never gives the same reading twice. *)
Definition monotone_clock (env : Env) : Prop :=
  forall i j, (i < j)%nat -> utcnow env i < utcnow env j.

(** Every stored turn was stamped before the next reading of the clock,
    and the ledger as a whole is in stamp order. *)
Definition well_stamped (env : Env) (w : World) : Prop :=
  chronological (messages_collection w)
  /\ Forall (fun m => Message.created_at m < utcnow env (ticks w))
       (messages_collection w).

(** A computation returns, and its result and final world satisfy [Q]. *)
Definition wp {A} (m : M A) (Q : A -> World -> Prop) (w : World) : Prop :=
  match m w with
  | (Returned a, w') => Q a w'
  | (Raised _, _) => False
  end.

(** The store is append-only: [w'] is [w] with documents appended and
    [n] more ticks consumed. *)
Record grows (w w' : World) (dm : list Message.t) (ds : list Summary.t)
  (de : list Episode.t) (n : nat) : Prop := {
  grows_messages : messages_collection w' = (messages_collection w ++ dm)%list;
  grows_summaries : summaries_collection w' = (summaries_collection w ++ ds)%list;
  grows_episodes : episodes_collection w' = (episodes_collection w ++ de)%list;
  grows_ticks : ticks w' = (ticks w + n)%nat
}.

(** The two gates of a turn, as [chat] computes them: the count of user
    turns of the session once the incoming message is recorded, and the
    length of the short-term window fetched right after recording it. *)
Definition user_turn_count (request : ChatRequest.t) (w : World) : Z :=
  Z_len (filter (user_turn_of (ChatRequest.user_id request)
                   (ChatRequest.session_id request))
           (messages_collection w)) + 1.

Definition session_gate (request : ChatRequest.t) (w : World) : bool :=
  user_turn_count request w mod SUMMARIZE_EVERY_USER_MSGS =? 0.

Definition turn_window_length (request : ChatRequest.t) (w : World) : Z :=
  Z.min SHORT_TERM_N
    (Z_len (partition (ChatRequest.user_id request)
              (ChatRequest.session_id request) w) + 1).

Definition lifetime_gate (request : ChatRequest.t) (w : World) : bool :=
  turn_window_length request w mod 5 =? 0.

(** The tick at which [chat] asks for the reply: one clock reading for the
    user turn, an embedding and a clock reading per extracted episode, and
    the embedding of the query come first. *)
Definition reply_tick (request : ChatRequest.t) (w : World) : nat :=
  (ticks w + 2 + 2 * List.length (candidates (ChatRequest.message request)))%nat.

(** The digests one turn adds to the summaries collection. *)
Definition turn_digests (request : ChatRequest.t) (w : World)
  (new : list Summary.t) : Prop :=
  let user_id := ChatRequest.user_id request in
  let session_id := ChatRequest.session_id request in
  if session_gate request w then
    exists text now,
      if lifetime_gate request w then
        exists text' now',
          new = [Summary.mk user_id session_id "session" text now;
                 Summary.mk user_id None "user" text' now']
      else new = [Summary.mk user_id session_id "session" text now]
  else new = [].

(** The invariant of the summaries collection. *)
Definition digest_ok (d : Summary.t) : Prop :=
  (Summary.scope d = "session" /\ Summary.session_id d <> None)
  \/ (Summary.scope d = "user" /\ Summary.session_id d = None).


(** The world after a sequence of turns handled one after another: each
    turn runs to its end before the next one starts. *)
Fixpoint run_turns (env : Env) (requests : list ChatRequest.t) (w : World)
  : World :=
  match requests with
  | [] => w
  | request :: rest => run_turns env rest (snd (chat env request w))
  end.

(** ** Sample worlds *)

Definition sample_env : Env := {|
  utcnow := fun k => 1000 + Z.of_nat k;
  post_generate := fun _ _ _ => Some "- the user said hello";
  post_embeddings := fun _ _ _ => Some [1%Q; 0%Q];
  random_rand := fun _ _ => 0%Q;
  cosine_value := fun _ _ => 1%Q
|}.

(** The same world with the generation service down. *)
Definition outage_env : Env := {|
  utcnow := utcnow sample_env;
  post_generate := fun _ _ _ => None;
  post_embeddings := post_embeddings sample_env;
  random_rand := random_rand sample_env;
  cosine_value := cosine_value sample_env
|}.

Definition empty_world : World := {|
  messages_collection := [];
  summaries_collection := [];
  episodes_collection := [];
  ticks := 0
|}.

(** Two exchanges already recorded in session "s", and a digest of an
    older session "old" of the same user. *)
Definition busy_world : World := {|
  messages_collection :=
    [Message.mk "u" (Some "s") "user" "hello" 1;
     Message.mk "u" (Some "s") "assistant" "hi" 2;
     Message.mk "u" (Some "s") "user" "how are you" 3;
     Message.mk "u" (Some "s") "assistant" "fine" 4];
  summaries_collection :=
    [Summary.mk "u" (Some "old") "session" "- talked about tea" 0];
  episodes_collection := [];
  ticks := 5
|}.

Definition hi_request : ChatRequest.t := ChatRequest.mk "u" (Some "s") "hi".

(** One turn of a request sent with a null [session_id]. *)
Definition nameless_world : World := {|
  messages_collection := [Message.mk "u" None "user" "hello" 1];
  summaries_collection := [];
  episodes_collection := [];
  ticks := 2
|}.

(** Three turns of session "s" saved within one tick of the clock: they
    carry the same [created_at]. *)
Definition tied_world : World := {|
  messages_collection :=
    [Message.mk "u" (Some "s") "user" "one" 7;
     Message.mk "u" (Some "s") "assistant" "two" 7;
     Message.mk "u" (Some "s") "user" "three" 7];
  summaries_collection := [];
  episodes_collection := [];
  ticks := 3
|}.

(** Three stored episodes of user "u" and one of another user; the
    similarity of this sample world is the dot product. *)
Definition dot (a b : list Q) : Q :=
  fold_right Qplus 0%Q (map (fun p => (fst p * snd p)%Q) (combine a b)).

Definition rank_env : Env := {|
  utcnow := utcnow sample_env;
  post_generate := post_generate sample_env;
  post_embeddings := fun _ _ _ => Some [1%Q; 0%Q];
  random_rand := random_rand sample_env;
  cosine_value := dot
|}.

Definition tea_episode : Episode.t :=
  Episode.mk "u" (Some "s") "I love green tea" 0.8%Q [1%Q; 0%Q] 10.
Definition rain_episode : Episode.t :=
  Episode.mk "u" (Some "s") "It rained on Monday" 0.5%Q [0%Q; 1%Q] 11.
Definition cake_episode : Episode.t :=
  Episode.mk "u" (Some "s") "I like lemon cake" 0.6%Q [1%Q; 0%Q] 12.
Definition other_episode : Episode.t :=
  Episode.mk "v" (Some "s") "I never eat fish" 0.8%Q [1%Q; 0%Q] 13.

Definition rank_world : World := {|
  messages_collection := [];
  summaries_collection := [];
  episodes_collection :=
    [tea_episode; rain_episode; other_episode; cake_episode];
  ticks := 20
|}.

(** ** Vocabulary of the further properties *)

(** The requests that belong to one session. *)
Definition for_session (user_id : string) (session_id : option string) (r : ChatRequest.t) : bool :=
  String.eqb (ChatRequest.user_id r) user_id
  && session_eqb (ChatRequest.session_id r) session_id.

Definition turns_of (user_id : string) (session_id : option string)
  (requests : list ChatRequest.t) : Z :=
  Z_len (filter (for_session user_id session_id) requests).

(** The user turns and the session digests that the store holds for one
    session. *)
Definition user_turns (user_id : string) (session_id : option string) (w : World) : Z :=
  Z_len (filter (user_turn_of user_id session_id) (messages_collection w)).

Definition session_digests (user_id : string) (session_id : option string) (w : World) : Z :=
  Z_len (filter (session_digest_of user_id session_id) (summaries_collection w)).

(** What holds of a store that only [chat] turns have written: every
    session holds two turns per user turn, one session digest per five user
    turns, and no digest of another scope. *)
Record written_by_turns (w : World) : Prop := {
  turns_paired :
    forall u s, Z_len (partition u s w) = 2 * user_turns u s w;
  turns_cadence :
    forall u s, session_digests u s w = user_turns u s w / 5;
  turns_no_lifetime :
    Forall (fun d => Summary.scope d = "session") (summaries_collection w)
}.

(** The digests of "u" in [busy_world], among a lifetime digest and a
    digest of another user, with no turn recorded. *)
Definition crowded_world : World := {|
  messages_collection := [];
  summaries_collection :=
    [Summary.mk "v" (Some "s") "session" "- talked about rain" 0;
     Summary.mk "u" (Some "old") "session" "- talked about tea" 0;
     Summary.mk "u" None "user" "likes tea" 1];
  episodes_collection := [];
  ticks := 5
|}.

(** The sections of a prompt after the system primer, as [build_prompt]
    appends them. *)
Definition prompt_sections (long_term_summaries : LongTermSummaries)
  (short_term_messages : list Message.t) (current_message : string)
  (episodic_facts : list ScoredEpisode) : list string :=
  ((match lt_lifetime long_term_summaries with
    | Some (String c t) => [("User Profile: " ++ String c t)%string]
    | _ => []
    end)
   ++ (match lt_session long_term_summaries with
       | Some (String c t) => [("Session Context: " ++ String c t)%string]
       | _ => []
       end)
   ++ (match short_term_messages with
       | [] => []
       | _ => [("Recent conversation:" ++ PyStr.newline
                ++ PyStr.join PyStr.newline
                     (map render_turn short_term_messages))%string]
       end)
   ++ [("User: " ++ current_message)%string]
   ++ (match episodic_facts with
       | [] => []
       | _ => [("Relevant facts:" ++ PyStr.newline
                ++ PyStr.join PyStr.newline
                     (map (fun fact => "- " ++ Episode.fact (episode fact))
                        episodic_facts))%string]
       end))%list.

(** ** The read endpoints of [api_endpoints.py] *)

Definition newer_episode (a b : Episode.t) : bool :=
  Episode.created_at b <=? Episode.created_at a.

Record TurnView := {
  tv_role : string;
  tv_content : string;
  tv_created_at : string
}.

Record EpisodeView := {
  ev_fact : string;
  ev_importance : Q;
  ev_created_at : string
}.

Record SummaryView := {
  sv_scope : string;
  sv_text : string;
  sv_created_at : string
}.

Record DailyCount := {
  dc_date : string;
  dc_count : Z
}.

Module MemoryResponse.
Record t := mk {
  short_term_messages : list TurnView;
  session_summary : option string;
  lifetime_summary : option string;
  recent_episodes : list EpisodeView
}.
End MemoryResponse.

Module AggregateResponse.
Record t := mk {
  daily_message_counts : list DailyCount;
  recent_summaries : list SummaryView;
  recent_episodes : list EpisodeView
}.
End AggregateResponse.

(** The answer of an endpoint: the body with status 200, or the detail of
    the [HTTPException] with status 500. *)
Inductive Http (A : Type) :=
| Ok200 (body : A)
| Err500 (detail : string).
Arguments Ok200 {A} body.
Arguments Err500 {A} detail.

(** The [{"$group": ..., "count": {"$sum": 1}}] stage: one document per
    distinct key, with the number of documents of that key.  The store gives
    the groups in no particular order; here they stand in the order of
    [nodup], and the [$sort] stage that follows orders them by their keys,
    which are distinct. *)
Definition group_count (keys : list string) : list DailyCount :=
  map (fun k => {| dc_date := k;
                   dc_count := Z_len (filter (String.eqb k) keys) |})
    (nodup string_dec keys).

Definition later_date (a b : DailyCount) : bool :=
  String.leb (dc_date b) (dc_date a).

(** [text[:100] + "..." if len(text) > 100 else text] *)
Definition preview (text : string) : string :=
  if (100 <? String.length text)%nat then substring 0 100 text ++ "..."
  else text.

Section Endpoints.

(** [datetime.isoformat] and the [$dateToString] operator of the store with
    the format "%Y-%m-%d", on a stamp. *)
Variable isoformat : Z -> string.
Variable date_to_string : Z -> string.

Definition episode_view (ep : Episode.t) : EpisodeView :=
  {| ev_fact := Episode.fact ep;
     ev_importance := Episode.importance ep;
     ev_created_at := isoformat (Episode.created_at ep) |}.

Definition turn_view (msg : Message.t) : TurnView :=
  {| tv_role := Message.role msg;
     tv_content := Message.content msg;
     tv_created_at := isoformat (Message.created_at msg) |}.

Definition summary_view (s : Summary.t) : SummaryView :=
  {| sv_scope := Summary.scope s;
     sv_text := preview (Summary.text s);
     sv_created_at := isoformat (Summary.created_at s) |}.

Definition get_memory (user_id : string) : M (Http MemoryResponse.t) :=
  try_except
    (docs <- find_messages ;;
     let recent_session :=
       hd_error (sort_desc newer_message
                   (filter (fun m => String.eqb (Message.user_id m) user_id)
                      docs)) in
     let session_id :=
       match recent_session with
       | Some m => Message.session_id m
       | None => Some "default"
       end in
     short_term_messages <-
       get_short_term_messages user_id session_id SHORT_TERM_N ;;
     summaries <- get_long_term_summaries user_id session_id ;;
     docs <- find_episodes ;;
     let recent_episodes :=
       firstn 20
         (sort_desc newer_episode
            (filter (fun e => String.eqb (Episode.user_id e) user_id) docs)) in
     ret (Ok200
            {| MemoryResponse.short_term_messages :=
                 map turn_view short_term_messages;
               MemoryResponse.session_summary := lt_session summaries;
               MemoryResponse.lifetime_summary := lt_lifetime summaries;
               MemoryResponse.recent_episodes :=
                 map episode_view recent_episodes |}))
    (fun e => ret (Err500 (str_of_exn e))).

Definition get_aggregate (user_id : string) : M (Http AggregateResponse.t) :=
  try_except
    (docs <- find_messages ;;
     let matched :=
       filter (fun m => String.eqb (Message.user_id m) user_id) docs in
     let groups :=
       group_count (map (fun m => date_to_string (Message.created_at m))
                      matched) in
     let daily_counts := firstn 30 (sort_desc later_date groups) in
     docs <- find_summaries ;;
     let recent_summaries :=
       firstn 10
         (sort_desc newer_summary
            (filter (fun s => String.eqb (Summary.user_id s) user_id) docs)) in
     docs <- find_episodes ;;
     let recent_episodes :=
       firstn 20
         (sort_desc newer_episode
            (filter (fun e => String.eqb (Episode.user_id e) user_id) docs)) in
     ret (Ok200
            {| AggregateResponse.daily_message_counts := daily_counts;
               AggregateResponse.recent_summaries :=
                 map summary_view recent_summaries;
               AggregateResponse.recent_episodes :=
                 map episode_view recent_episodes |}))
    (fun e => ret (Err500 (str_of_exn e))).

End Endpoints.

(** The session that [get_memory] looks at: the session of the newest turn
    of the user, "default" for a user without turn. *)
Definition latest_session (user_id : string) (w : World) : option string :=
  match hd_error (sort_desc newer_message
                    (filter (fun m => String.eqb (Message.user_id m) user_id)
                       (messages_collection w))) with
  | Some m => Message.session_id m
  | None => Some "default"
  end.

Definition sum_counts (l : list DailyCount) : Z :=
  fold_right (fun d acc => dc_count d + acc) 0 l.

(** The turns of a user of one day. *)
Definition turns_dated (date_to_string : Z -> string) (user_id day : string)
  (w : World) : Z :=
  Z_len (filter (fun m => String.eqb (Message.user_id m) user_id
                          && String.eqb (date_to_string (Message.created_at m)) day)
           (messages_collection w)).

(** A sample [$dateToString]: the stamps before 3 fall on one day, the
    others on the next. *)
Definition sample_day (t : Z) : string :=
  if t <? 3 then "2024-01-01" else "2024-01-02".

(** ** The similarity score on binary64 numbers *)

Module F64.

Import PrimFloat.
Local Open Scope float_scope.

(** Modelled from the spec: the cosine similarity dot(a, b) / (|a| |b|) of
    scikit-learn, whose code is outside the repository.  It is computed the
    way the library computes it on two 1-by-n rows of Python floats: each
    row is divided by its Euclidean norm, a norm below ten machine epsilons
    counting as 1 (a zero row stays as it is), and the result is the dot
    product of the two rows so scaled.  Sums run from left to right.  The
    library raises on a row with a component that is not finite, on a row
    without feature and on rows of different dimensions. *)
Definition dot (a b : list float) : float :=
  fold_left (fun acc p => acc + fst p * snd p) (combine a b) 0.

(** Modelled from the spec: the Euclidean norm |a| of a row. *)
Definition row_norm (a : list float) : float := sqrt (dot a a).

(** 10 * 2^-52. *)
Definition ten_eps : float := 0x1.4p-49.

(** Modelled from the spec: the norm a row is divided by, 1 for a zero
    norm. *)
Definition handle_zeros_in_scale (norm : float) : float :=
  if norm <? ten_eps then 1 else norm.

(** Modelled from the spec: a row divided by its norm. *)
Definition normalize (a : list float) : list float :=
  let norm := handle_zeros_in_scale (row_norm a) in
  map (fun x => x / norm) a.

Definition all_finite (a : list float) : bool := forallb is_finite a.

(** Modelled from the spec: [cosine_similarity(vec1, vec2)[0][0]] on two
    1-by-n rows, [None] when the library raises. *)
Definition cosine_similarity (vec1 vec2 : list float) : option float :=
  if (all_finite vec1 && all_finite vec2
      && (0 <? List.length vec1)%nat
      && (List.length vec1 =? List.length vec2)%nat)%bool
  then Some (dot (normalize vec1) (normalize vec2))
  else None.

(** [cosine_similarity_score]: the bare [except] turns every exception of
    the library into 0.0. *)
Definition cosine_similarity_score (embedding1 embedding2 : list float)
  : float :=
  match cosine_similarity embedding1 embedding2 with
  | Some v => v
  | None => 0
  end.





Definition row_nan : list float := [nan; 1].
Definition row_infinity : list float := [infinity; 1].

End F64.

(** * Properties *)

(** ** Session ids *)

Lemma session_eqb_refl (a : option string) : session_eqb a a = true.
Proof. destruct a; simpl; [apply String.eqb_refl | reflexivity]. Qed.

Lemma session_eqb_eq (a b : option string) :
  session_eqb a b = true <-> a = b.
Proof.
  destruct a as [x|], b as [y|]; simpl; try (split; congruence).
  rewrite String.eqb_eq. split; congruence.
Qed.

(** ** Strings *)

Lemma prefix_iff_app (w s : string) :
  String.prefix w s = true <-> exists post, s = w ++ post.
Proof.
  revert s; induction w as [|a w IH]; intros s; simpl.
  - destruct s; split; eauto.
  - destruct s as [|b s]; simpl.
    + split; [discriminate | intros [post H]; discriminate].
    + destruct (ascii_dec a b) as [->|Hne].
      * split.
        -- intros H. apply IH in H as [post H]. exists post. now rewrite H.
        -- intros [post H]. apply IH. exists post. now inversion H.
      * split; [discriminate | intros [post H]; inversion H; congruence].
Qed.

Lemma contains_unfold (w s : string) :
  PyStr.contains w s =
  if String.prefix w s then true
  else match s with
       | EmptyString => false
       | String _ s' => PyStr.contains w s'
       end.
Proof. destruct s; reflexivity. Qed.

Lemma contains_Occurs (w s : string) :
  PyStr.contains w s = true <-> Occurs w s.
Proof.
  induction s as [|c s IH]; rewrite contains_unfold;
    destruct (String.prefix w _) eqn:E.
  - split; [intros _ | reflexivity].
    apply prefix_iff_app in E as [post E]. exists "", post. exact E.
  - split; [discriminate|].
    intros [pre [post H]].
    destruct pre; simpl in H; [|discriminate].
    assert (String.prefix w "" = true) by (apply prefix_iff_app; eauto).
    congruence.
  - split; [intros _ | reflexivity].
    apply prefix_iff_app in E as [post E]. exists "", post. exact E.
  - split.
    + intros H. apply IH in H as [pre [post H]].
      exists (String c pre), post. simpl. now rewrite H.
    + intros [pre [post H]]. destruct pre as [|c' pre]; simpl in H.
      * assert (String.prefix w (String c s) = true)
          by (apply prefix_iff_app; eauto).
        congruence.
      * inversion H; subst. apply IH. now exists pre, post.
Qed.

Lemma any_in_iff (words : list string) (s : string) :
  PyStr.any_in words s = true <-> exists w, In w words /\ Occurs w s.
Proof.
  unfold PyStr.any_in. rewrite existsb_exists.
  split; intros [w [Hin H]]; exists w; split; auto; now apply contains_Occurs.
Qed.

Lemma any_in_false (words : list string) (s : string) :
  PyStr.any_in words s = false <-> forall w, In w words -> ~ Occurs w s.
Proof.
  split.
  - intros E w Hin Hocc.
    assert (PyStr.any_in words s = true) by (apply any_in_iff; eauto).
    congruence.
  - intros H. destruct (PyStr.any_in words s) eqn:E; auto.
    apply any_in_iff in E as [w [Hin Hocc]]. now elim (H w Hin).
Qed.

(** ** Importance scoring *)

Lemma score_importance_rule (sentence : string) :
  importance_rule sentence (score_importance sentence).
Proof.
  unfold score_importance.
  destruct (PyStr.any_in tier1_words (PyStr.lower sentence)) eqn:E1.
  - apply any_in_iff in E1 as [w [Hin Hocc]]. now apply rule_strong with w.
  - destruct (PyStr.any_in tier2_words (PyStr.lower sentence)) eqn:E2.
    + apply any_in_iff in E2 as [w [Hin Hocc]].
      apply rule_mild with w; auto. now apply any_in_false.
    + apply rule_default; now apply any_in_false.
Qed.

Lemma importance_rule_functional (sentence : string) (p q : Q) :
  importance_rule sentence p -> importance_rule sentence q -> p = q.
Proof.
  intros Hp Hq.
  destruct Hp as [w Hw Ho | w Hn Hw Ho | Hn1 Hn2];
    destruct Hq as [w' Hw' Ho' | w' Hn' Hw' Ho' | Hn1' Hn2']; auto;
    solve [ elim (Hn' _ Hw Ho) | elim (Hn _ Hw' Ho') | elim (Hn1' _ Hw Ho)
          | elim (Hn1 _ Hw' Ho') | elim (Hn2' _ Hw Ho) | elim (Hn2 _ Hw' Ho') ].
Qed.

Lemma score_importance_above_threshold (sentence : string) :
  Qgt_bool (score_importance sentence) 0.4%Q = true.
Proof.
  unfold score_importance.
  destruct (PyStr.any_in tier1_words _); [reflexivity|].
  destruct (PyStr.any_in tier2_words _); reflexivity.
Qed.

(** C5.  Importance scoring follows the three buckets in precedence order,
    first match wins: a sentence whose lowercased text contains one of
    important, remember, always, never, love, hate scores 0.8; otherwise one
    that contains one of like, prefer, want, need scores 0.6; otherwise it
    scores 0.5.  The rule gives every sentence exactly one score, and "I
    always remember trips", "I like coffee" and "It is sunny" score 0.8, 0.6
    and 0.5. *)
Theorem importance_buckets_in_precedence_order :
  (forall sentence, importance_rule sentence (score_importance sentence))
  /\ (forall sentence q,
        importance_rule sentence q -> q = score_importance sentence)
  /\ score_importance "I always remember trips" = 0.8%Q
  /\ score_importance "I like coffee" = 0.6%Q
  /\ score_importance "It is sunny" = 0.5%Q.
Proof.
  split; [exact score_importance_rule|].
  split.
  - intros sentence q H.
    exact (importance_rule_functional _ _ _ H (score_importance_rule sentence)).
  - repeat split; reflexivity.
Qed.

Lemma importance_buckets_witness :
  importance_rule "I like coffee" 0.6%Q
  /\ score_importance "I like coffee" = 0.6%Q.
Proof.
  destruct importance_buckets_in_precedence_order as [Hrule [Hfun _]].
  split.
  - exact (Hrule "I like coffee").
  - symmetry. apply Hfun. exact (Hrule "I like coffee").
Defined.

(** C10.  Keywords are looked for as substrings of the lowercased
    sentence, not as words: whatever text stands before and after the
    keyword, a keyword of the first list gives the score 0.8, and a keyword
    of the second list gives 0.6 when no keyword of the first list occurs.
    So every sentence with "nevertheless" scores 0.8 and a sentence with
    "unlikely" and no keyword of the first list scores 0.6. *)
Theorem keywords_match_inside_longer_words :
  (forall sentence pre post w,
      PyStr.lower sentence = pre ++ w ++ post ->
      In w tier1_words -> score_importance sentence = 0.8%Q)
  /\ (forall sentence pre post w,
        PyStr.lower sentence = pre ++ w ++ post ->
        In w tier2_words ->
        PyStr.any_in tier1_words (PyStr.lower sentence) = false ->
        score_importance sentence = 0.6%Q)
  /\ (forall sentence,
        Occurs "nevertheless" (PyStr.lower sentence) ->
        score_importance sentence = 0.8%Q)
  /\ (forall sentence,
        Occurs "unlikely" (PyStr.lower sentence) ->
        PyStr.any_in tier1_words (PyStr.lower sentence) = false ->
        score_importance sentence = 0.6%Q)
  /\ score_importance "That is unlikely" = 0.6%Q
  /\ score_importance "Nevertheless we went" = 0.8%Q.
Proof.
  assert (strong : forall sentence pre post w,
             PyStr.lower sentence = pre ++ w ++ post ->
             In w tier1_words -> score_importance sentence = 0.8%Q).
  { intros sentence pre post w Hs Hw. unfold score_importance.
    replace (PyStr.any_in tier1_words (PyStr.lower sentence)) with true;
      [reflexivity|].
    symmetry. apply any_in_iff. exists w. split; [exact Hw|].
    now exists pre, post. }
  assert (mild : forall sentence pre post w,
             PyStr.lower sentence = pre ++ w ++ post ->
             In w tier2_words ->
             PyStr.any_in tier1_words (PyStr.lower sentence) = false ->
             score_importance sentence = 0.6%Q).
  { intros sentence pre post w Hs Hw Hno. unfold score_importance.
    rewrite Hno.
    replace (PyStr.any_in tier2_words (PyStr.lower sentence)) with true;
      [reflexivity|].
    symmetry. apply any_in_iff. exists w. split; [exact Hw|].
    now exists pre, post. }
  split; [exact strong|]. split; [exact mild|].
  split; [|split; [|split; reflexivity]].
  - intros sentence [pre [post Hs]].
    apply (strong sentence pre ("theless" ++ post) "never").
    + rewrite Hs. reflexivity.
    + simpl; tauto.
  - intros sentence [pre [post Hs]] Hno.
    apply (mild sentence (pre ++ "un") ("ly" ++ post) "like"); [|simpl; tauto|exact Hno].
    rewrite Hs. clear.
    induction pre as [|c pre IH]; simpl; [reflexivity | f_equal; exact IH].
Qed.

Lemma keywords_match_inside_witness :
  PyStr.lower "It is UNLIKELY" = "it is un" ++ "like" ++ "ly"
  /\ score_importance "It is UNLIKELY" = 0.6%Q.
Proof.
  split; [reflexivity|].
  destruct keywords_match_inside_longer_words as [_ [mild _]].
  apply (mild "It is UNLIKELY" "it is un" "ly" "like");
    [reflexivity | simpl; tauto | reflexivity].
Defined.

(** ** The stable descending sort *)

Section SortDesc.

Context {A : Type}.
Variable ge : A -> A -> bool.

Lemma insert_desc_perm (x : A) (l : list A) :
  Permutation (insert_desc ge x l) (x :: l).
Proof.
  induction l as [|y l IH]; simpl; [reflexivity|].
  destruct (ge x y); [reflexivity|].
  rewrite IH. apply perm_swap.
Qed.

Lemma sort_desc_perm (l : list A) : Permutation (sort_desc ge l) l.
Proof.
  induction l as [|x l IH]; simpl; [reflexivity|].
  rewrite insert_desc_perm. now constructor.
Qed.

Lemma sort_desc_length (l : list A) :
  List.length (sort_desc ge l) = List.length l.
Proof. apply Permutation_length, sort_desc_perm. Qed.

(** An element that may stand before none of the others goes last. *)
Lemma insert_desc_last (x : A) (l : list A) :
  Forall (fun y => ge x y = false) l -> insert_desc ge x l = (l ++ [x])%list.
Proof.
  induction 1 as [|y l Hy _ IH]; simpl; [reflexivity|].
  now rewrite Hy, IH.
Qed.

(** Sorting keeps the order of the elements of one class, when two
    elements of the class may always stand before each other. *)
Lemma insert_desc_filter (p : A -> bool) (x : A) (l : list A) :
  (forall a b, p a = true -> p b = true -> ge a b = true) ->
  filter p (insert_desc ge x l) = filter p (x :: l).
Proof.
  intros Hp. induction l as [|y l IH]; [reflexivity|].
  simpl insert_desc. destruct (ge x y) eqn:E; [reflexivity|].
  simpl in *. rewrite IH.
  destruct (p x) eqn:Ex, (p y) eqn:Ey; auto.
  rewrite (Hp x y Ex Ey) in E. discriminate.
Qed.

Lemma sort_desc_stable (p : A -> bool) (l : list A) :
  (forall a b, p a = true -> p b = true -> ge a b = true) ->
  filter p (sort_desc ge l) = filter p l.
Proof.
  intros Hp. induction l as [|x l IH]; [reflexivity|].
  simpl sort_desc. rewrite insert_desc_filter by exact Hp.
  simpl. now rewrite IH.
Qed.

Hypothesis ge_total : forall a b, ge a b = true \/ ge b a = true.
Hypothesis ge_trans :
  forall a b c, ge a b = true -> ge b c = true -> ge a c = true.

Lemma insert_desc_sorted (x : A) (l : list A) :
  StronglySorted (fun a b => ge a b = true) l ->
  StronglySorted (fun a b => ge a b = true) (insert_desc ge x l).
Proof.
  induction 1 as [|y l Hs IH Hall]; simpl.
  - repeat constructor.
  - destruct (ge x y) eqn:E.
    + constructor; [now constructor|].
      constructor; [exact E|].
      eapply Forall_impl; [|exact Hall]. intros b Hb. now apply ge_trans with y.
    + constructor; [exact IH|].
      assert (Hyx : ge y x = true) by (destruct (ge_total x y); congruence).
      eapply Permutation_Forall; [symmetry; apply insert_desc_perm|].
      now constructor.
Qed.

Lemma sort_desc_sorted (l : list A) :
  StronglySorted (fun a b => ge a b = true) (sort_desc ge l).
Proof.
  induction l as [|x l IH]; simpl; [constructor | now apply insert_desc_sorted].
Qed.

End SortDesc.

(** ** Lists *)

Lemma firstn_filter_prefix {A} (p : A -> bool) (n : nat) (l : list A) :
  exists rest, filter p l = (filter p (firstn n l) ++ rest)%list.
Proof.
  revert n; induction l as [|x l IH]; intros [|n]; simpl;
    try solve [eexists; reflexivity].
  destruct (IH n) as [rest Hrest]. exists rest.
  destruct (p x); simpl; now rewrite <- Hrest.
Qed.

Lemma Forall_firstn {A} (P : A -> Prop) (n : nat) (l : list A) :
  Forall P l -> Forall P (firstn n l).
Proof.
  intros H; revert n; induction H; intros [|n]; simpl; constructor; auto.
Qed.

Lemma StronglySorted_firstn {A} (R : A -> A -> Prop) (n : nat) (l : list A) :
  StronglySorted R l -> StronglySorted R (firstn n l).
Proof.
  intros H; revert n; induction H as [|x l Hs IH Hall]; intros [|n]; simpl;
    try constructor; auto.
  now apply Forall_firstn.
Qed.

Lemma StronglySorted_skipn {A} (R : A -> A -> Prop) (n : nat) (l : list A) :
  StronglySorted R l -> StronglySorted R (skipn n l).
Proof.
  intros H; revert n; induction H as [|x l Hs IH Hall]; intros [|n]; simpl;
    try constructor; auto.
Qed.

Lemma lastn_length {A} (n : nat) (l : list A) :
  List.length (lastn n l) = Nat.min (List.length l) n.
Proof. unfold lastn. rewrite length_skipn. lia. Qed.

Lemma StronglySorted_app_cross {A} (R : A -> A -> Prop) (l1 l2 : list A) :
  StronglySorted R (l1 ++ l2) -> Forall (fun a => Forall (R a) l2) l1.
Proof.
  induction l1 as [|x l1 IH]; simpl; intros H; constructor.
  - apply StronglySorted_inv in H as [_ H].
    apply Forall_app in H. tauto.
  - apply IH. now apply StronglySorted_inv in H.
Qed.

Lemma StronglySorted_weaken {A} (R S : A -> A -> Prop) (l : list A) :
  (forall a b, R a b -> S a b) -> StronglySorted R l -> StronglySorted S l.
Proof.
  intros HRS. induction 1 as [|x l Hs IH Hall]; constructor; auto.
  eapply Forall_impl; [|exact Hall]. auto.
Qed.

(** ** The message ledger *)

Lemma sort_desc_chronological (l : list Message.t) :
  chronological l -> sort_desc newer_message l = rev l.
Proof.
  induction 1 as [|x l Hs IH Hall]; [reflexivity|].
  simpl. rewrite IH. apply insert_desc_last.
  apply Forall_rev. eapply Forall_impl; [|exact Hall].
  intros y Hy. unfold newer_message. apply Z.leb_gt. exact Hy.
Qed.

(** Appending a turn stamped later than the turns of a partition keeps the
    partition chronological. *)
Lemma save_message_keeps_chronology (env : Env)
  (user_id : string) (session_id : option string) (role content : string) (u : string) (s : option string) (w : World) :
  chronological (partition u s w) ->
  Forall (fun m => Message.created_at m < utcnow env (ticks w)) (partition u s w) ->
  chronological
    (partition u s (snd (save_message env user_id session_id role content w))).
Proof.
  intros Hc Hlt. unfold partition in *. simpl.
  rewrite filter_app. simpl.
  set (m := Message.mk user_id session_id role content (utcnow env (ticks w))).
  assert (Hend : forall l,
             chronological l ->
             Forall (fun a => Message.created_at a < Message.created_at m) l ->
             chronological (l ++ [m])).
  { induction 1 as [|x l Hs IH Hall]; intros Hm; simpl.
    - repeat constructor.
    - inversion Hm; subst. constructor; [now apply IH|].
      apply Forall_app; split; [exact Hall | now repeat constructor]. }
  destruct (in_session u s m); [|now rewrite app_nil_r].
  now apply Hend.
Qed.

(** ** The two collaborators *)

Lemma get_embedding_run (env : Env) (text : string) (w : World) :
  get_embedding env text w
  = (Returned (embedded env (ticks w) text),
     {| messages_collection := messages_collection w;
        summaries_collection := summaries_collection w;
        episodes_collection := episodes_collection w;
        ticks := S (ticks w) |}).
Proof.
  unfold get_embedding, embedded, bind, tick, ret.
  destruct (post_embeddings env (ticks w) EMBED_MODEL text); reflexivity.
Qed.

Lemma get_ollama_response_run (env : Env) (prompt : string) (w : World) :
  get_ollama_response env prompt w
  = (Returned (generated env (ticks w) prompt),
     {| messages_collection := messages_collection w;
        summaries_collection := summaries_collection w;
        episodes_collection := episodes_collection w;
        ticks := S (ticks w) |}).
Proof.
  unfold get_ollama_response, generated, bind, tick, ret.
  destruct (post_generate env (ticks w) CHAT_MODEL prompt); reflexivity.
Qed.

(** The shell of [cosine_similarity_score]: whenever the library call
    raises (rows without feature, or of different dimensions), the bare
    [except] answers 0.0. *)
Lemma cosine_similarity_score_fallback (env : Env) (e1 e2 : list Q) :
  e1 = [] \/ List.length e1 <> List.length e2 ->
  cosine_similarity_score env e1 e2 = 0%Q.
Proof.
  unfold cosine_similarity_score, sklearn_cosine_similarity.
  intros [-> | H]; [reflexivity|].
  apply Nat.eqb_neq in H. rewrite H, andb_false_r. reflexivity.
Qed.

(** ** The similarity score on binary64 numbers *)






(** ** The relevance ranker *)

Lemma more_similar_total (a b : ScoredEpisode) :
  more_similar a b = true \/ more_similar b a = true.
Proof.
  unfold more_similar. rewrite !Qle_bool_iff.
  destruct (Qlt_le_dec (similarity a) (similarity b)) as [H|H].
  - right. now apply Qlt_le_weak.
  - now left.
Qed.

Lemma more_similar_trans (a b c : ScoredEpisode) :
  more_similar a b = true -> more_similar b c = true -> more_similar a c = true.
Proof.
  unfold more_similar. rewrite !Qle_bool_iff. intros H1 H2.
  now apply Qle_trans with (similarity b).
Qed.

Lemma same_similarity_class (q : Q) (a b : ScoredEpisode) :
  Qeq_bool (similarity a) q = true -> Qeq_bool (similarity b) q = true ->
  more_similar a b = true.
Proof.
  unfold more_similar. rewrite !Qeq_bool_iff, Qle_bool_iff.
  intros Ha Hb. rewrite Ha, Hb. apply Qle_refl.
Qed.

(** C6.  With a [top_k] that is not negative, [get_relevant_episodes]
    returns exactly min(n, top_k) of the user's n episodes, in descending
    order of similarity to the query embedding; they are the best ones (no
    episode left out is more similar than one returned), and episodes of
    equal similarity stand in the order of the scan. *)
Theorem rank_returns_top_k
  (env : Env) (user_id message : string) (top_k : Z) (w : World) :
  0 <= top_k ->
  let scan :=
    map (score_episode env (embedded env (ticks w) message))
      (filter (fun e => String.eqb (Episode.user_id e) user_id)
         (episodes_collection w)) in
  exists ranked w',
    get_relevant_episodes env user_id message top_k w = (Returned ranked, w')
    /\ grows w w' [] [] [] 1
    /\ List.length ranked = Nat.min (List.length scan) (Z.to_nat top_k)
    /\ StronglySorted (fun a b => (similarity b <= similarity a)%Q) ranked
    /\ (exists rest,
          Permutation (ranked ++ rest) scan
          /\ Forall (fun a =>
                       Forall (fun r => (similarity r <= similarity a)%Q) rest)
               ranked)
    /\ (forall q, exists rest,
          filter (fun a => Qeq_bool (similarity a) q) scan
          = (filter (fun a => Qeq_bool (similarity a) q) ranked ++ rest)%list).
Proof.
  intros Hk scan.
  set (sorted := sort_desc more_similar scan).
  assert (Hsorted : StronglySorted (fun a b => (similarity b <= similarity a)%Q) sorted).
  { eapply StronglySorted_weaken;
      [|apply (sort_desc_sorted more_similar more_similar_total more_similar_trans)].
    intros a b H. now apply Qle_bool_iff. }
  exists (firstn (Z.to_nat top_k) sorted). eexists.
  split; [|split; [|split; [|split; [|split]]]].
  - unfold get_relevant_episodes, bind. rewrite get_embedding_run.
    unfold find_episodes, ret, slice_to. simpl.
    replace (top_k <? 0) with false by (symmetry; apply Z.ltb_ge; exact Hk).
    reflexivity.
  - constructor; simpl; rewrite ?app_nil_r; auto; lia.
  - rewrite length_firstn. unfold sorted. rewrite sort_desc_length. lia.
  - now apply StronglySorted_firstn.
  - exists (skipn (Z.to_nat top_k) sorted). split.
    + rewrite firstn_skipn. apply sort_desc_perm.
    + apply StronglySorted_app_cross. now rewrite firstn_skipn.
  - intros q.
    destruct (firstn_filter_prefix (fun a => Qeq_bool (similarity a) q)
                (Z.to_nat top_k) sorted) as [rest Hrest].
    exists rest. rewrite <- Hrest. unfold sorted. symmetry.
    apply sort_desc_stable. apply same_similarity_class.
Qed.

Lemma rank_returns_top_k_witness :
  exists ranked w',
    get_relevant_episodes rank_env "u" "what do I drink" 5 rank_world
    = (Returned ranked, w')
    /\ List.length ranked = 3%nat.
Proof.
  destruct (rank_returns_top_k rank_env "u" "what do I drink" 5 rank_world)
    as [ranked [w' [Hrun [_ [Hlen _]]]]]; [lia|].
  exists ranked, w'. split; [exact Hrun | exact Hlen].
Defined.

(** The ranking of the sample world: the two episodes of similarity 1 come
    first, in the order of the scan, and the episode of the other user is
    not ranked. *)
Example rank_sample :
  fst (get_relevant_episodes rank_env "u" "what do I drink" 5 rank_world)
  = Returned [ {| episode := tea_episode; similarity := 1 |};
               {| episode := cake_episode; similarity := 1 |};
               {| episode := rain_episode; similarity := 0 |} ].
Proof. vm_compute. reflexivity. Qed.

(** ** Reasoning about computations *)

Lemma wp_ret {A} (a : A) (Q : A -> World -> Prop) (w : World) :
  Q a w -> wp (ret a) Q w.
Proof. exact (fun H => H). Qed.

Lemma wp_bind_run {A B} (m : M A) (f : A -> M B) (Q : B -> World -> Prop)
  (w w1 : World) (a : A) :
  m w = (Returned a, w1) -> wp (f a) Q w1 -> wp (bind m f) Q w.
Proof. unfold wp, bind. intros ->. exact (fun H => H). Qed.

Lemma wp_bind {A B} (m : M A) (f : A -> M B) (Q : B -> World -> Prop)
  (w : World) :
  wp m (fun a w1 => wp (f a) Q w1) w -> wp (bind m f) Q w.
Proof.
  unfold wp, bind. destruct (m w) as [[a|e] w1]; [exact (fun H => H) | tauto].
Qed.

Lemma wp_mono {A} (m : M A) (P Q : A -> World -> Prop) (w : World) :
  (forall a w', P a w' -> Q a w') -> wp m P w -> wp m Q w.
Proof.
  unfold wp. intros HPQ. destruct (m w) as [[a|e] w']; [apply HPQ | tauto].
Qed.

Lemma wp_run {A} (m : M A) (Q : A -> World -> Prop) (w : World) :
  wp m Q w -> exists a w', m w = (Returned a, w') /\ Q a w'.
Proof.
  unfold wp. destruct (m w) as [[a|e] w']; [eauto | tauto].
Qed.

Lemma wp_try_except {A} (body : M A) (handler : Exn -> M A)
  (Q : A -> World -> Prop) (w : World) :
  wp body Q w -> wp (try_except body handler) Q w.
Proof.
  unfold wp, try_except. destruct (body w) as [[a|e] w']; [exact (fun H => H) | tauto].
Qed.

Lemma grows_refl (w : World) : grows w w [] [] [] 0.
Proof. constructor; rewrite ?app_nil_r; auto. Qed.

Lemma grows_trans (w w1 w2 : World) dm ds de n dm' ds' de' n' :
  grows w w1 dm ds de n -> grows w1 w2 dm' ds' de' n' ->
  grows w w2 (dm ++ dm') (ds ++ ds') (de ++ de') (n + n').
Proof.
  intros [H1 H2 H3 H4] [H1' H2' H3' H4'].
  constructor; rewrite ?app_assoc; try congruence. lia.
Qed.

(** ** Episodic extraction *)

Lemma extract_loop_spec (env : Env) (user_id : string) (session_id : option string)
  (sentences : list string) :
  forall (facts : list Episode.t) (w : World),
    wp (extract_loop env user_id session_id sentences facts)
      (fun out w' =>
         exists new,
           out = (facts ++ new)%list
           /\ grows w w' [] [] new (2 * List.length new)
           /\ map Episode.fact new
              = filter length_gate (map PyStr.strip sentences)
           /\ Forall (fun e =>
                        Episode.importance e = score_importance (Episode.fact e)
                        /\ Episode.user_id e = user_id
                        /\ Episode.session_id e = session_id) new) w.
Proof.
  induction sentences as [|sentence rest IH]; intros facts w.
  - apply wp_ret. exists []. rewrite app_nil_r.
    split; [reflexivity|]. split; [apply grows_refl|].
    split; [reflexivity | constructor].
  - simpl extract_loop. simpl map. simpl filter.
    destruct (length_gate (PyStr.strip sentence)) eqn:Egate.
    + rewrite score_importance_above_threshold.
      eapply wp_bind_run; [apply get_embedding_run|].
      eapply wp_bind_run; [reflexivity|].
      eapply wp_bind_run; [reflexivity|].
      eapply wp_mono; [|apply IH].
      intros out w' [new [Hout [Hg [Hmap Hall]]]]. simpl in Hg.
      eexists (_ :: new). split; [|split; [|split]].
      * rewrite Hout, <- app_assoc. reflexivity.
      * destruct Hg as [H1 H2 H3 H4]. simpl in *.
        constructor; simpl; auto.
        -- rewrite H3, <- app_assoc. reflexivity.
        -- rewrite H4. lia.
      * simpl. now rewrite Hmap.
      * constructor; [simpl; auto | exact Hall].
    + apply IH.
Qed.

Lemma candidates_pass_gate (message sentence : string) :
  In sentence (candidates message) ->
  exists piece,
    In piece (PyStr.split "." message)
    /\ sentence = PyStr.strip piece
    /\ (10 < String.length (PyStr.strip piece) < 200)%nat.
Proof.
  unfold candidates. rewrite filter_In, in_map_iff.
  intros [[piece [Hs Hin]] Hgate]. exists piece. subst sentence.
  repeat split; auto; unfold length_gate in Hgate;
    apply andb_true_iff in Hgate as [H1 H2];
    [now apply Nat.ltb_lt in H1 | now apply Nat.ltb_lt in H2].
Qed.

(** C4.  Whatever the message, [extract_episodes] returns, and the
    episodes it persists are exactly the trimmed pieces between full stops
    whose length lies strictly between 10 and 200, in order and scored by
    the importance rule: no piece whose trimmed length is at most 10 or at
    least 200 is ever stored. *)
Theorem extraction_keeps_length_gate
  (env : Env) (user_id : string) (session_id : option string) (message : string) (w : World) :
  exists facts w',
    extract_episodes env user_id session_id message w = (Returned facts, w')
    /\ episodes_collection w' = (episodes_collection w ++ facts)%list
    /\ map Episode.fact facts = candidates message
    /\ Forall (fun e =>
                 Episode.importance e = score_importance (Episode.fact e)
                 /\ exists piece,
                      In piece (PyStr.split "." message)
                      /\ Episode.fact e = PyStr.strip piece
                      /\ (10 < String.length (PyStr.strip piece) < 200)%nat)
         facts.
Proof.
  destruct (wp_run _ _ _ (extract_loop_spec env user_id session_id
                            (PyStr.split "." message) [] w))
    as [facts [w' [Hrun [new [Hout [Hg [Hmap Hall]]]]]]].
  simpl in Hout. subst facts.
  exists new, w'. split; [exact Hrun|]. split; [apply Hg|].
  split; [exact Hmap|].
  apply Forall_forall. intros e He.
  rewrite Forall_forall in Hall. split; [now apply Hall|].
  apply candidates_pass_gate. unfold candidates. rewrite <- Hmap.
  now apply in_map.
Qed.

(** ** The summarizer *)

Lemma sort_desc_nil_iff {A} (ge : A -> A -> bool) (l : list A) :
  sort_desc ge l = [] <-> l = [].
Proof.
  split; intros H.
  - apply length_zero_iff_nil. rewrite <- (sort_desc_length ge), H. reflexivity.
  - now subst.
Qed.

Lemma firstn_S_nil_iff {A} (n : nat) (l : list A) :
  firstn (S n) l = [] <-> l = [].
Proof. destruct l; simpl; split; auto; discriminate. Qed.

(** C8.  When the session has no turn in the ledger,
    [generate_session_summary] returns the empty string and leaves the
    world untouched: no digest is written and no tick is consumed, so
    neither the generation service nor the clock is consulted. *)
Theorem summary_of_empty_window_is_noop
  (env : Env) (user_id : string) (session_id : option string) (w : World) :
  partition user_id session_id w = [] ->
  generate_session_summary env user_id session_id w = (Returned "", w).
Proof.
  unfold partition, generate_session_summary, bind, find_messages.
  intros ->. reflexivity.
Qed.

Lemma summary_of_empty_window_witness :
  partition "nobody" (Some "s") busy_world = []
  /\ generate_session_summary outage_env "nobody" (Some "s") busy_world
     = (Returned "", busy_world).
Proof.
  split; [reflexivity|].
  apply summary_of_empty_window_is_noop. reflexivity.
Defined.

Lemma generate_session_summary_spec
  (env : Env) (user_id : string) (session_id : option string) (w : World) :
  wp (generate_session_summary env user_id session_id)
    (fun r w' =>
       (partition user_id session_id w = [] /\ r = "" /\ w' = w)
       \/ (partition user_id session_id w <> []
           /\ exists now,
                grows w w' []
                  [Summary.mk user_id session_id "session" r now] [] 2))
    w.
Proof.
  destruct (partition user_id session_id w) eqn:E.
  - unfold wp. rewrite summary_of_empty_window_is_noop by exact E.
    left. auto.
  - unfold generate_session_summary.
    eapply wp_bind_run; [reflexivity|].
    fold (partition user_id session_id w). rewrite E.
    destruct (firstn 20 (sort_desc newer_message (t :: l))) eqn:F.
    { apply firstn_S_nil_iff, sort_desc_nil_iff in F. discriminate. }
    eapply wp_bind_run; [apply get_ollama_response_run|].
    eapply wp_bind_run; [reflexivity|].
    eapply wp_bind_run; [reflexivity|].
    apply wp_ret. right. split; [discriminate|].
    eexists. constructor; simpl; rewrite ?app_nil_r; auto. lia.
Qed.

Lemma update_lifetime_summary_spec (env : Env) (user_id : string) (w : World) :
  wp (update_lifetime_summary env user_id)
    (fun r w' =>
       (filter (session_scope_of user_id) (summaries_collection w) = []
        /\ r = "" /\ w' = w)
       \/ (filter (session_scope_of user_id) (summaries_collection w) <> []
           /\ exists now,
                grows w w' [] [Summary.mk user_id None "user" r now] [] 2))
    w.
Proof.
  unfold update_lifetime_summary.
  eapply wp_bind_run; [reflexivity|].
  destruct (filter (session_scope_of user_id) (summaries_collection w)) eqn:E.
  - apply wp_ret. left. auto.
  - destruct (firstn 5 (sort_desc newer_summary (t :: l))) eqn:F.
    { apply firstn_S_nil_iff, sort_desc_nil_iff in F. discriminate. }
    eapply wp_bind_run; [apply get_ollama_response_run|].
    eapply wp_bind_run; [reflexivity|].
    eapply wp_bind_run; [reflexivity|].
    apply wp_ret. right. split; [discriminate|].
    eexists. constructor; simpl; rewrite ?app_nil_r; auto. lia.
Qed.

(** ** Specifications of the steps of a turn *)

Lemma save_message_spec (env : Env) (user_id : string) (session_id : option string) (role content : string)
  (w : World) :
  wp (save_message env user_id session_id role content)
    (fun _ w' =>
       grows w w'
         [Message.mk user_id session_id role content (utcnow env (ticks w))]
         [] [] 1) w.
Proof.
  unfold wp. simpl. constructor; simpl; rewrite ?app_nil_r; auto. lia.
Qed.

Lemma get_short_term_messages_spec (user_id : string) (session_id : option string) (limit : Z)
  (w : World) :
  0 <= limit ->
  wp (get_short_term_messages user_id session_id limit)
    (fun l w' =>
       w' = w
       /\ l = rev (firstn (Z.to_nat limit)
                     (sort_desc newer_message (partition user_id session_id w))))
    w.
Proof.
  intros H. unfold wp, get_short_term_messages.
  replace (limit <? 0) with false by (symmetry; apply Z.ltb_ge; exact H).
  simpl. auto.
Qed.

Lemma get_long_term_summaries_spec (user_id : string) (session_id : option string) (w : World) :
  wp (get_long_term_summaries user_id session_id) (fun _ w' => w' = w) w.
Proof. reflexivity. Qed.

Lemma extract_episodes_spec (env : Env) (user_id : string) (session_id : option string) (message : string)
  (w : World) :
  wp (extract_episodes env user_id session_id message)
    (fun facts w' =>
       grows w w' [] [] facts (2 * List.length facts)
       /\ map Episode.fact facts = candidates message) w.
Proof.
  unfold extract_episodes.
  eapply wp_mono; [|apply extract_loop_spec].
  intros out w' [new [Hout [Hg [Hmap _]]]]. simpl in Hout. subst out. auto.
Qed.

Lemma get_relevant_episodes_spec (env : Env) (user_id message : string)
  (top_k : Z) (w : World) :
  wp (get_relevant_episodes env user_id message top_k)
    (fun _ w' => grows w w' [] [] [] 1) w.
Proof.
  unfold get_relevant_episodes.
  eapply wp_bind_run; [apply get_embedding_run|].
  unfold wp. simpl. constructor; simpl; rewrite ?app_nil_r; auto. lia.
Qed.

Lemma get_ollama_response_spec (env : Env) (prompt : string) (w : World) :
  wp (get_ollama_response env prompt)
    (fun r w' => r = generated env (ticks w) prompt /\ grows w w' [] [] [] 1) w.
Proof.
  unfold wp. rewrite get_ollama_response_run. split; [reflexivity|].
  constructor; simpl; rewrite ?app_nil_r; auto. lia.
Qed.

Lemma should_summarize_spec (user_id : string) (session_id : option string) (w : World) :
  wp (should_summarize user_id session_id)
    (fun b w' =>
       w' = w
       /\ b = (Z_len (filter (user_turn_of user_id session_id)
                        (messages_collection w))
               mod SUMMARIZE_EVERY_USER_MSGS =? 0)) w.
Proof. unfold wp. simpl. auto. Qed.

Lemma in_session_refl (user_id : string) (session_id : option string) (role content : string) (t : Z) :
  in_session user_id session_id
    (Message.mk user_id session_id role content t) = true.
Proof.
  unfold in_session. simpl. now rewrite String.eqb_refl, session_eqb_refl.
Qed.

Lemma Z_len_app {A} (l1 l2 : list A) : Z_len (l1 ++ l2) = Z_len l1 + Z_len l2.
Proof. unfold Z_len. rewrite length_app. lia. Qed.

(** The window that [chat] fetches after recording the user turn. *)
Lemma turn_window_Z_len (request : ChatRequest.t) (w w1 : World) (m : Message.t) :
  in_session (ChatRequest.user_id request) (ChatRequest.session_id request) m
  = true ->
  messages_collection w1 = (messages_collection w ++ [m])%list ->
  Z_len (rev (firstn (Z.to_nat SHORT_TERM_N)
                (sort_desc newer_message
                   (partition (ChatRequest.user_id request)
                      (ChatRequest.session_id request) w1))))
  = turn_window_length request w.
Proof.
  intros Hm Hw1. unfold Z_len, turn_window_length, partition, Z_len.
  rewrite length_rev, length_firstn, sort_desc_length, Hw1, filter_app.
  simpl filter. rewrite Hm, length_app. simpl List.length.
  change (Z.to_nat SHORT_TERM_N) with 16%nat. unfold SHORT_TERM_N.
  rewrite Nat2Z.inj_min, Nat2Z.inj_add. reflexivity.
Qed.

(** The count that [should_summarize] takes once both turns are recorded. *)
Lemma turn_user_count (request : ChatRequest.t) (w w' : World)
  (content reply : string) (t t' : Z) :
  messages_collection w'
  = (messages_collection w
     ++ [Message.mk (ChatRequest.user_id request)
           (ChatRequest.session_id request) "user" content t;
         Message.mk (ChatRequest.user_id request)
           (ChatRequest.session_id request) "assistant" reply t'])%list ->
  (Z_len (filter (user_turn_of (ChatRequest.user_id request)
                    (ChatRequest.session_id request))
            (messages_collection w'))
   mod SUMMARIZE_EVERY_USER_MSGS =? 0)
  = session_gate request w.
Proof.
  intros ->. unfold session_gate, user_turn_count.
  rewrite filter_app, Z_len_app. unfold user_turn_of at 2. simpl.
  rewrite !in_session_refl. simpl. reflexivity.
Qed.

(** ** One turn of [chat] *)

Ltac wp_step spec :=
  eapply wp_bind; eapply wp_mono; [|apply spec]; cbv beta.

Lemma chat_spec (env : Env) (request : ChatRequest.t) (w : World) :
  let user_id := ChatRequest.user_id request in
  let session_id := ChatRequest.session_id request in
  let message := ChatRequest.message request in
  wp (chat env request)
    (fun res w' =>
       exists prompt mu facts new n,
         let reply := generated env (reply_tick request w) prompt in
         res = Http200 {| reply := reply; memory_used := mu |}
         /\ short_term_count mu = turn_window_length request w
         /\ grows w w'
              [Message.mk user_id session_id "user" message (utcnow env (ticks w));
               Message.mk user_id session_id "assistant" reply
                 (utcnow env (S (reply_tick request w)))]
              new facts n
         /\ (reply_tick request w + 2 <= ticks w')%nat
         /\ map Episode.fact facts = candidates message
         /\ turn_digests request w new) w.
Proof.
  cbv zeta. unfold chat. cbv zeta. apply wp_try_except.
  wp_step save_message_spec. intros _ w1 G1.
  wp_step get_short_term_messages_spec; [|unfold SHORT_TERM_N; lia].
  intros window w1' [E Hwindow]. subst w1'.
  assert (Hlen : Z_len window = turn_window_length request w).
  { subst window. apply turn_window_Z_len with (m := Message.mk (ChatRequest.user_id request)
                 (ChatRequest.session_id request) "user"
                 (ChatRequest.message request) (utcnow env (ticks w))).
    - apply in_session_refl.
    - apply G1. }
  clear Hwindow.
  wp_step get_long_term_summaries_spec. intros lts w1' E. subst w1'.
  wp_step extract_episodes_spec. intros facts w2 [G2 Hfacts].
  wp_step get_relevant_episodes_spec. intros relevant w3 G3.
  wp_step get_ollama_response_spec. intros reply w4 [Hreply G4].
  assert (Htick : ticks w3 = reply_tick request w).
  { unfold reply_tick. rewrite <- Hfacts, length_map.
    rewrite (grows_ticks _ _ _ _ _ _ G3), (grows_ticks _ _ _ _ _ _ G2),
      (grows_ticks _ _ _ _ _ _ G1). lia. }
  rewrite Htick in Hreply.
  wp_step save_message_spec. intros _ w5 G5.
  assert (Htick4 : ticks w4 = S (reply_tick request w))
    by (rewrite (grows_ticks _ _ _ _ _ _ G4), Htick; lia).
  rewrite Htick4 in G5.
  assert (Htick5 : ticks w5 = (reply_tick request w + 2)%nat)
    by (rewrite (grows_ticks _ _ _ _ _ _ G5), (grows_ticks _ _ _ _ _ _ G4), Htick; lia).
  pose proof (grows_trans _ _ _ _ _ _ _ _ _ _ _
                (grows_trans _ _ _ _ _ _ _ _ _ _ _
                   (grows_trans _ _ _ _ _ _ _ _ _ _ _
                      (grows_trans _ _ _ _ _ _ _ _ _ _ _ G1 G2) G3) G4) G5) as G.
  simpl in G. rewrite ?app_nil_r in G.
  wp_step should_summarize_spec. intros fire w5' [E Hfire]. subst w5'.
  rewrite (turn_user_count request w w5 _ reply _ _
             (grows_messages _ _ _ _ _ _ G)) in Hfire.
  unfold turn_digests. cbv zeta.
  destruct fire.
  - (* the session gate fires *)
    eapply wp_bind. wp_step generate_session_summary_spec.
    intros text w6 [[Hempty _] | [_ [now G6]]].
    { exfalso. unfold partition in Hempty.
      rewrite (grows_messages _ _ _ _ _ _ G), filter_app in Hempty.
      apply app_eq_nil in Hempty as [_ Hempty]. simpl in Hempty.
      rewrite in_session_refl in Hempty. discriminate. }
    pose proof (grows_trans _ _ _ _ _ _ _ _ _ _ _ G G6) as G'.
    simpl in G'. rewrite ?app_nil_r in G'.
    destruct (Z_len window mod 5 =? 0) eqn:Elife.
    + wp_step update_lifetime_summary_spec.
      intros text' w7 [[Hempty _] | [_ [now' G7]]].
      { exfalso. rewrite (grows_summaries _ _ _ _ _ _ G'), filter_app in Hempty.
        apply app_eq_nil in Hempty as [_ Hempty]. simpl in Hempty.
        unfold session_scope_of in Hempty. simpl in Hempty.
        rewrite String.eqb_refl in Hempty. discriminate. }
      pose proof (grows_trans _ _ _ _ _ _ _ _ _ _ _ G' G7) as G''.
      simpl in G''. rewrite ?app_nil_r in G''.
      apply wp_ret. apply wp_ret.
      subst reply.
      do 5 eexists. split; [reflexivity|]. split; [exact Hlen|].
      split; [exact G''|].
      split; [rewrite (grows_ticks _ _ _ _ _ _ G7), (grows_ticks _ _ _ _ _ _ G6); lia|].
      split; [exact Hfacts|].
      rewrite <- Hfire. unfold lifetime_gate. rewrite <- Hlen, Elife. eauto.
    + apply wp_ret. apply wp_ret.
      subst reply.
      do 5 eexists. split; [reflexivity|]. split; [exact Hlen|].
      split; [exact G'|].
      split; [rewrite (grows_ticks _ _ _ _ _ _ G6); lia|].
      split; [exact Hfacts|].
      rewrite <- Hfire. unfold lifetime_gate. rewrite <- Hlen, Elife. eauto.
  - (* the session gate does not fire: nothing is summarized *)
    eapply wp_bind. apply wp_ret. apply wp_ret.
    subst reply.
    do 5 eexists. split; [reflexivity|]. split; [exact Hlen|].
    split; [exact G|]. split; [lia|]. split; [exact Hfacts|].
    rewrite <- Hfire. reflexivity.
Qed.


(** ** The ledger stays in stamp order *)

Lemma StronglySorted_filter {A} (R : A -> A -> Prop) (p : A -> bool)
  (l : list A) :
  StronglySorted R l -> StronglySorted R (filter p l).
Proof.
  induction 1 as [|x l Hs IH Hall]; simpl; [constructor|].
  destruct (p x); [|exact IH].
  constructor; [exact IH|].
  apply Forall_forall. intros y Hy. apply filter_In in Hy as [Hy _].
  rewrite Forall_forall in Hall. now apply Hall.
Qed.

Lemma StronglySorted_app {A} (R : A -> A -> Prop) (l1 l2 : list A) :
  StronglySorted R l1 -> StronglySorted R l2 ->
  Forall (fun a => Forall (R a) l2) l1 ->
  StronglySorted R (l1 ++ l2).
Proof.
  induction 1 as [|x l1 Hs IH Hall]; simpl; intros H2 Hcross; [exact H2|].
  inversion Hcross; subst.
  constructor; [now apply IH|].
  apply Forall_app; split; assumption.
Qed.

Lemma well_stamped_partition (env : Env) (user_id : string) (session_id : option string)
  (w : World) :
  well_stamped env w -> chronological (partition user_id session_id w).
Proof. intros [H _]. now apply StronglySorted_filter. Qed.

Lemma empty_world_well_stamped (env : Env) : well_stamped env empty_world.
Proof. split; constructor. Qed.

(** Under a clock that always advances, a turn keeps the ledger in stamp
    order. *)
Lemma chat_keeps_well_stamped (env : Env) (request : ChatRequest.t) (w : World) :
  monotone_clock env -> well_stamped env w ->
  well_stamped env (snd (chat env request w)).
Proof.
  intros Hclock [Hsorted Hpast].
  destruct (wp_run _ _ _ (chat_spec env request w))
    as [res [w' [Hrun [prompt [mu [facts [new [n H]]]]]]]].
  cbv zeta in H. destruct H as [_ [_ [G [Hticks _]]]].
  rewrite Hrun. simpl. unfold well_stamped.
  rewrite (grows_messages _ _ _ _ _ _ G).
  assert (H0 : (ticks w < S (reply_tick request w))%nat)
    by (unfold reply_tick; lia).
  pose proof (Hclock _ _ H0) as Hlt0.
  assert (H1 : (ticks w < ticks w')%nat) by lia.
  pose proof (Hclock _ _ H1) as Hlt1.
  assert (H2 : (S (reply_tick request w) < ticks w')%nat) by lia.
  pose proof (Hclock _ _ H2) as Hlt2.
  split.
  - apply StronglySorted_app; [exact Hsorted| |].
    + constructor; [constructor; [constructor|constructor] |].
      constructor; [exact Hlt0 | constructor].
    + eapply Forall_impl; [|exact Hpast]. intros m Hm.
      constructor; [exact Hm|].
      constructor; [|constructor].
      eapply Z.lt_trans; [exact Hm | exact Hlt0].
  - apply Forall_app; split.
    + eapply Forall_impl; [|exact Hpast]. intros m Hm.
      eapply Z.lt_trans; [exact Hm | exact Hlt1].
    + constructor; [exact Hlt1|]. constructor; [exact Hlt2 | constructor].
Qed.

(** So after any number of turns from the empty store, every partition is
    chronological. *)
Lemma run_turns_well_stamped (env : Env) (requests : list ChatRequest.t) :
  monotone_clock env ->
  forall w, well_stamped env w -> well_stamped env (run_turns env requests w).
Proof.
  intros Hclock. induction requests as [|request rest IH]; intros w Hw.
  - exact Hw.
  - simpl. apply IH. now apply chat_keeps_well_stamped.
Qed.

Lemma run_turns_chronological (env : Env) (requests : list ChatRequest.t)
  (user_id : string) (session_id : option string) :
  monotone_clock env ->
  chronological (partition user_id session_id (run_turns env requests empty_world)).
Proof.
  intros Hclock. apply well_stamped_partition with env.
  apply run_turns_well_stamped; [exact Hclock | apply empty_world_well_stamped].
Qed.

(** ** The trigger policy *)

(** C1, as stated, fails.  In a session with four recorded turns, two of
    them of the user, a fifth turn makes the window length 5 while the user
    count is 3: the lifetime gate holds, the session gate does not, and the
    turn writes no digest, although [update_lifetime_summary] would have
    written one had it been called. *)
Lemma lifetime_gate_alone_writes_nothing :
  lifetime_gate hi_request busy_world = true
  /\ session_gate hi_request busy_world = false
  /\ summaries_collection (snd (chat sample_env hi_request busy_world))
     = summaries_collection busy_world
  /\ List.length
       (summaries_collection
          (snd (update_lifetime_summary sample_env "u" busy_world)))
     = 2%nat.
Proof. vm_compute. repeat split. Qed.

(** C1, amended.  Every turn returns, and the digests it appends are
    decided by the session gate first and by the lifetime gate inside it:
    none when the session gate fails, a session digest when it holds, and a
    lifetime digest after it when the lifetime gate holds as well.  The
    window length of the lifetime gate is the [short_term_count] that the
    response reports. *)
Theorem lifetime_gate_is_nested_in_session_gate
  (env : Env) (request : ChatRequest.t) (w : World) :
  exists res w' new,
    chat env request w = (Returned res, w')
    /\ (exists reply mu,
          res = Http200 {| reply := reply; memory_used := mu |}
          /\ short_term_count mu = turn_window_length request w)
    /\ summaries_collection w' = (summaries_collection w ++ new)%list
    /\ turn_digests request w new
    /\ (session_gate request w = false -> new = [])
    /\ (List.length new = 2%nat <->
        session_gate request w = true /\ lifetime_gate request w = true).
Proof.
  destruct (wp_run _ _ _ (chat_spec env request w))
    as [res [w' [Hrun [prompt [mu [facts [new [n H]]]]]]]].
  cbv zeta in H. destruct H as [Hres [Hcount [G [_ [_ Hd]]]]].
  exists res, w', new.
  split; [exact Hrun|]. split; [eauto|].
  split; [apply G|]. split; [exact Hd|].
  unfold turn_digests in Hd. cbv zeta in Hd.
  destruct (session_gate request w).
  - destruct Hd as [text [now Hd]].
    destruct (lifetime_gate request w).
    + destruct Hd as [text' [now' ->]]. simpl.
      split; [discriminate | tauto].
    + subst new. simpl. split; [discriminate|].
      split; [discriminate | intros [_ H]; discriminate].
  - subst new. simpl. split; [reflexivity|].
    split; [discriminate | intros [H _]; discriminate].
Qed.

Lemma lifetime_gate_is_nested_witness :
  exists res w',
    chat sample_env hi_request busy_world = (Returned res, w')
    /\ summaries_collection w' = summaries_collection busy_world.
Proof.
  destruct (lifetime_gate_is_nested_in_session_gate sample_env hi_request
              busy_world) as [res [w' [new [Hrun [_ [Hsum [_ [Hnone _]]]]]]]].
  exists res, w'. split; [exact Hrun|].
  rewrite Hsum, (Hnone eq_refl). apply app_nil_r.
Defined.

(** ** Failure of the generation service *)

(** C2, as stated, fails.  With the generation service down, the turn is
    answered with status 200 and the apology text as its reply: no error
    reaches the caller. *)
Lemma generation_outage_is_answered_200 :
  fst (chat outage_env hi_request empty_world)
  = Returned
      (Http200
         {| reply := apology;
            memory_used :=
              {| short_term_count := 1;
                 long_term_summary := None;
                 session_summary := None;
                 episodic_facts := [] |} |}).
Proof. vm_compute. reflexivity. Qed.

(** C2, amended.  When the generation request of the reply step fails,
    [get_ollama_response] hands back the apology text instead of raising:
    the turn succeeds with that text as its reply, and the ledger holds the
    user turn recorded before, followed by the apology as the assistant
    turn. *)
Theorem generation_failure_yields_apology
  (env : Env) (request : ChatRequest.t) (w : World) :
  (forall prompt,
      post_generate env (reply_tick request w) CHAT_MODEL prompt = None) ->
  exists mu w',
    chat env request w
    = (Returned (Http200 {| reply := apology; memory_used := mu |}), w')
    /\ messages_collection w'
       = (messages_collection w
          ++ [Message.mk (ChatRequest.user_id request)
                (ChatRequest.session_id request) "user"
                (ChatRequest.message request) (utcnow env (ticks w));
              Message.mk (ChatRequest.user_id request)
                (ChatRequest.session_id request) "assistant" apology
                (utcnow env (S (reply_tick request w)))])%list.
Proof.
  intros Hdown.
  destruct (wp_run _ _ _ (chat_spec env request w))
    as [res [w' [Hrun [prompt [mu [facts [new [n H]]]]]]]].
  cbv zeta in H. destruct H as [Hres [_ [G _]]].
  unfold generated in Hres, G. rewrite Hdown in Hres, G.
  exists mu, w'. split; [now rewrite Hrun, Hres | apply G].
Qed.

Lemma generation_failure_witness :
  exists mu w',
    chat outage_env hi_request empty_world
    = (Returned (Http200 {| reply := apology; memory_used := mu |}), w')
    /\ messages_collection w'
       = [Message.mk "u" (Some "s") "user" "hi" 1000;
          Message.mk "u" (Some "s") "assistant" apology 1003].
Proof.
  apply (generation_failure_yields_apology outage_env hi_request empty_world).
  intros prompt. reflexivity.
Defined.

(** ** The scopes of the digests *)





(** The session id of a request may be null.  The digest of the turns
    recorded without session id is stored under the scope "session" with a
    null session id: the invariant needs the session id of the request. *)
Lemma null_session_digest_has_no_session_id :
  summaries_collection
    (snd (generate_session_summary sample_env "u" None nameless_world))
  = [Summary.mk "u" None "session" "- the user said hello" 1003]
  /\ ~ Forall digest_ok
         (summaries_collection
            (snd (generate_session_summary sample_env "u" None
                    nameless_world))).
Proof.
  split; [reflexivity|].
  intros H. vm_compute in H.
  inversion H as [|d l [[_ Hd] | [Hd _]] _]; subst.
  - now apply Hd.
  - discriminate Hd.
Qed.

(** * Further properties of the engine *)

(** ** What a turn records *)

(** X1.  When the store answers every call and the generation service
    answers with a text or fails, whatever the text and whatever the
    embedding service does, a turn is answered with status 200 and appends
    exactly two turns to the ledger, the user's message and then the reply
    that the response carries; the turns recorded before are kept as they
    were. *)
Theorem turn_records_message_and_reply
  (env : Env) (request : ChatRequest.t) (w : World) :
  exists body w',
    chat env request w = (Returned (Http200 body), w')
    /\ messages_collection w'
       = (messages_collection w
          ++ [Message.mk (ChatRequest.user_id request)
                (ChatRequest.session_id request) "user"
                (ChatRequest.message request) (utcnow env (ticks w));
              Message.mk (ChatRequest.user_id request)
                (ChatRequest.session_id request) "assistant" (reply body)
                (utcnow env (S (reply_tick request w)))])%list.
Proof.
  destruct (wp_run _ _ _ (chat_spec env request w))
    as [res [w' [Hrun [prompt [mu [facts [new [n H]]]]]]]].
  cbv zeta in H. destruct H as [Hres [_ [G _]]].
  eexists. exists w'. split; [rewrite Hrun, Hres; reflexivity|].
  apply G.
Qed.

(** ** The cadence of the digests *)

Lemma Z_len_nonneg {A} (l : list A) : 0 <= Z_len l.
Proof. unfold Z_len. lia. Qed.

(** In a session that holds two turns per user turn, the two gates never
    hold on the same turn: when the count of user turns reaches a multiple
    of 5 the window holds 9 turns, or 16 from the tenth user turn on. *)
Lemma gates_exclude_each_other (request : ChatRequest.t) (w : World) :
  Z_len (partition (ChatRequest.user_id request)
           (ChatRequest.session_id request) w)
  = 2 * user_turns (ChatRequest.user_id request)
          (ChatRequest.session_id request) w ->
  session_gate request w = true -> lifetime_gate request w = false.
Proof.
  unfold session_gate, lifetime_gate, user_turn_count, turn_window_length,
    user_turns, SUMMARIZE_EVERY_USER_MSGS, SHORT_TERM_N.
  intros ->.
  pose proof (Z_len_nonneg
                (filter (user_turn_of (ChatRequest.user_id request)
                           (ChatRequest.session_id request))
                   (messages_collection w))) as Hc.
  set (c := Z_len _) in *.
  rewrite Z.eqb_eq, Z.eqb_neq. intros H1 H2.
  destruct (Z.min_spec 16 (2 * c + 1)) as [[_ E] | [_ E]]; rewrite E in H2;
    Z.div_mod_to_equations; lia.
Qed.

Lemma in_session_of_request (request : ChatRequest.t) (u : string) (s : option string) (role content : string)
  (t : Z) :
  in_session u s
    (Message.mk (ChatRequest.user_id request) (ChatRequest.session_id request)
       role content t)
  = for_session u s request.
Proof. reflexivity. Qed.

Lemma for_session_true (request : ChatRequest.t) (u : string) (s : option string) :
  for_session u s request = true ->
  ChatRequest.user_id request = u /\ ChatRequest.session_id request = s.
Proof.
  unfold for_session. rewrite andb_true_iff, String.eqb_eq, session_eqb_eq.
  tauto.
Qed.

(** The ledger and the digests after one turn. *)
Lemma chat_step (env : Env) (request : ChatRequest.t) (w : World) :
  exists reply t new,
    messages_collection (snd (chat env request w))
    = (messages_collection w
       ++ [Message.mk (ChatRequest.user_id request)
             (ChatRequest.session_id request) "user"
             (ChatRequest.message request) (utcnow env (ticks w));
           Message.mk (ChatRequest.user_id request)
             (ChatRequest.session_id request) "assistant" reply t])%list
    /\ summaries_collection (snd (chat env request w))
       = (summaries_collection w ++ new)%list
    /\ turn_digests request w new.
Proof.
  destruct (wp_run _ _ _ (chat_spec env request w))
    as [res [w' [Hrun [prompt [mu [facts [new [n H]]]]]]]].
  cbv zeta in H. destruct H as [_ [_ [G [_ [_ Hd]]]]].
  rewrite Hrun. simpl. do 2 eexists. exists new.
  split; [apply G|]. split; [apply G | exact Hd].
Qed.

Lemma user_turns_step (env : Env) (request : ChatRequest.t) (w : World)
  (u : string) (s : option string) :
  user_turns u s (snd (chat env request w))
  = user_turns u s w + (if for_session u s request then 1 else 0).
Proof.
  destruct (chat_step env request w) as [reply [t [new [Hm _]]]].
  unfold user_turns. rewrite Hm, filter_app, Z_len_app. f_equal.
  simpl. unfold user_turn_of. rewrite !in_session_of_request. simpl.
  destruct (for_session u s request); reflexivity.
Qed.

Lemma partition_step (env : Env) (request : ChatRequest.t) (w : World)
  (u : string) (s : option string) :
  Z_len (partition u s (snd (chat env request w)))
  = Z_len (partition u s w) + (if for_session u s request then 2 else 0).
Proof.
  destruct (chat_step env request w) as [reply [t [new [Hm _]]]].
  unfold partition. rewrite Hm, filter_app, Z_len_app. f_equal.
  simpl. rewrite !in_session_of_request.
  destruct (for_session u s request); reflexivity.
Qed.

Lemma chat_keeps_written_by_turns (env : Env) (request : ChatRequest.t)
  (w : World) :
  written_by_turns w -> written_by_turns (snd (chat env request w)).
Proof.
  intros [Hpair Hcad Hscope].
  pose proof (gates_exclude_each_other request w
                (Hpair (ChatRequest.user_id request)
                   (ChatRequest.session_id request))) as Hex.
  destruct (chat_step env request w) as [reply [t [new [Hm [Hs Hd]]]]].
  unfold turn_digests in Hd. cbv zeta in Hd.
  assert (Hnew :
            new = (if session_gate request w
                   then [Summary.mk (ChatRequest.user_id request)
                           (ChatRequest.session_id request) "session"
                           match new with d :: _ => Summary.text d | [] => "" end
                           match new with d :: _ => Summary.created_at d | [] => 0 end]
                   else [])).
  { destruct (session_gate request w); [|exact Hd].
    destruct Hd as [text [now Hd]]. rewrite (Hex eq_refl) in Hd.
    subst new. reflexivity. }
  clear Hd.
  constructor.
  - intros u s. rewrite partition_step, user_turns_step, Hpair.
    destruct (for_session u s request); lia.
  - intros u s. rewrite user_turns_step.
    unfold session_digests. rewrite Hs, filter_app, Z_len_app.
    fold (session_digests u s w). rewrite Hcad.
    destruct (for_session u s request) eqn:Efor.
    + apply for_session_true in Efor as [Hu Hsid].
      rewrite Hnew. unfold session_gate, user_turn_count.
      rewrite Hu, Hsid. fold (user_turns u s w).
      pose proof (Z_len_nonneg
                    (filter (user_turn_of u s) (messages_collection w))) as Hc.
      fold (user_turns u s w) in Hc.
      unfold SUMMARIZE_EVERY_USER_MSGS.
      destruct ((user_turns u s w + 1) mod 5 =? 0) eqn:Egate.
      * simpl. unfold session_digest_of. simpl.
        rewrite String.eqb_refl, session_eqb_refl. simpl. unfold Z_len. simpl.
        apply Z.eqb_eq in Egate. Z.div_mod_to_equations. lia.
      * simpl. unfold Z_len. simpl.
        apply Z.eqb_neq in Egate. Z.div_mod_to_equations. lia.
    + rewrite Z.add_0_r.
      replace (filter (session_digest_of u s) new) with (@nil Summary.t);
        [unfold Z_len; simpl; lia|].
      rewrite Hnew. destruct (session_gate request w); [|reflexivity].
      simpl. unfold session_digest_of. simpl.
      unfold for_session in Efor. rewrite Efor. reflexivity.
  - rewrite Hs. apply Forall_app. split; [exact Hscope|].
    rewrite Hnew. destruct (session_gate request w); repeat constructor.
Qed.

Lemma empty_world_written_by_turns : written_by_turns empty_world.
Proof. constructor; [reflexivity | reflexivity | constructor]. Qed.

Lemma run_turns_written_by_turns (env : Env) (requests : list ChatRequest.t) :
  forall w, written_by_turns w -> written_by_turns (run_turns env requests w).
Proof.
  induction requests as [|request rest IH]; intros w Hw; [exact Hw|].
  simpl. apply IH. now apply chat_keeps_written_by_turns.
Qed.

Lemma run_turns_user_turns (env : Env) (requests : list ChatRequest.t)
  (u : string) (s : option string) :
  forall w,
    user_turns u s (run_turns env requests w)
    = user_turns u s w + turns_of u s requests.
Proof.
  induction requests as [|request rest IH]; intros w.
  - unfold turns_of, Z_len. simpl. lia.
  - simpl run_turns. rewrite IH, user_turns_step.
    unfold turns_of. simpl filter.
    destruct (for_session u s request); unfold Z_len; simpl List.length; lia.
Qed.

(** X2.  When the turns are handled one after another, none starting
    before the one before it has ended, in a store that only turns have
    written, starting from the empty one, a session holds one session
    digest per five user turns: after k turns of a session, whatever turns
    of other sessions and users come in between, it has k div 5 session
    digests. *)
Theorem session_digest_every_fifth_turn
  (env : Env) (requests : list ChatRequest.t) (user_id : string) (session_id : option string) :
  session_digests user_id session_id (run_turns env requests empty_world)
  = turns_of user_id session_id requests / 5.
Proof.
  rewrite (turns_cadence _ (run_turns_written_by_turns env requests _
                              empty_world_written_by_turns)).
  rewrite run_turns_user_turns. reflexivity.
Qed.

(** X3.  When the turns are handled one after another, none starting
    before the one before it has ended, in a store that only turns have
    written, starting from the empty one, no lifetime digest is ever
    written: on the turns on which the session gate holds the window holds
    9 or 16 turns, so the nested lifetime gate fails, and every digest of
    the store has the scope "session". *)
Theorem turns_never_write_lifetime_digest
  (env : Env) (requests : list ChatRequest.t) :
  Forall (fun d => Summary.scope d = "session")
    (summaries_collection (run_turns env requests empty_world)).
Proof.
  apply turns_no_lifetime, run_turns_written_by_turns,
    empty_world_written_by_turns.
Qed.

(** ** The short-term window *)

Lemma newer_message_total (a b : Message.t) :
  newer_message a b = true \/ newer_message b a = true.
Proof. unfold newer_message. rewrite !Z.leb_le. lia. Qed.

Lemma newer_message_trans (a b c : Message.t) :
  newer_message a b = true -> newer_message b c = true ->
  newer_message a c = true.
Proof. unfold newer_message. rewrite !Z.leb_le. lia. Qed.

Lemma StronglySorted_rev {A} (R : A -> A -> Prop) (l : list A) :
  StronglySorted R l -> StronglySorted (fun a b => R b a) (rev l).
Proof.
  induction 1 as [|x l Hs IH Hall]; simpl; [constructor|].
  apply StronglySorted_app; [exact IH | repeat constructor|].
  apply Forall_rev. eapply Forall_impl; [|exact Hall].
  intros a Ha. constructor; [exact Ha | constructor].
Qed.

(** C3.  [get_short_term_messages] with a limit that is not negative
    leaves the world as it is and returns min(N, limit) of the N turns of
    the partition, in ascending order of [created_at]: the turns sorted
    newest first, cut after [limit] turns, and reversed.  No turn left out
    carries a later stamp than a turn returned.  When the turns were
    appended with strictly increasing stamps, the result is exactly the
    last min(N, limit) turns appended; with equal stamps it need not be,
    see [equal_stamps_return_older_turns]. *)
Theorem recent_returns_newest_turns_ascending
  (user_id : string) (session_id : option string) (limit : Z) (w : World) :
  0 <= limit ->
  let turns := partition user_id session_id w in
  let n := Nat.min (List.length turns) (Z.to_nat limit) in
  exists window,
    get_short_term_messages user_id session_id limit w = (Returned window, w)
    /\ window = rev (firstn (Z.to_nat limit) (sort_desc newer_message turns))
    /\ List.length window = n
    /\ StronglySorted
         (fun a b => Message.created_at a <= Message.created_at b) window
    /\ (exists older,
          Permutation (older ++ window) turns
          /\ Forall (fun o =>
                       Forall (fun m => Message.created_at o
                                        <= Message.created_at m) window)
               older)
    /\ (chronological turns ->
        window = lastn n turns /\ chronological window).
Proof.
  intros Hlimit turns n.
  set (sorted := sort_desc newer_message turns).
  assert (Hsorted : StronglySorted
                      (fun a b => Message.created_at b <= Message.created_at a)
                      sorted).
  { eapply StronglySorted_weaken;
      [|apply (sort_desc_sorted newer_message newer_message_total
                 newer_message_trans)].
    intros a b H. now apply Z.leb_le. }
  exists (rev (firstn (Z.to_nat limit) sorted)).
  split; [|split; [|split; [|split; [|split]]]].
  - unfold get_short_term_messages.
    replace (limit <? 0) with false by (symmetry; apply Z.ltb_ge; exact Hlimit).
    reflexivity.
  - reflexivity.
  - rewrite length_rev, length_firstn. unfold sorted.
    rewrite sort_desc_length. unfold n. lia.
  - apply (StronglySorted_rev
             (fun a b => Message.created_at b <= Message.created_at a)).
    now apply StronglySorted_firstn.
  - exists (skipn (Z.to_nat limit) sorted). split.
    + rewrite Permutation_app_comm.
      rewrite <- (Permutation_rev (firstn (Z.to_nat limit) sorted)).
      rewrite firstn_skipn. apply sort_desc_perm.
    + rewrite <- (firstn_skipn (Z.to_nat limit) sorted) in Hsorted.
      apply StronglySorted_app_cross in Hsorted.
      apply Forall_forall. intros o Ho. apply Forall_rev.
      apply Forall_forall. intros m Hm.
      rewrite Forall_forall in Hsorted.
      pose proof (Hsorted m Hm) as Hcross.
      rewrite Forall_forall in Hcross. now apply Hcross.
  - intros Hc.
    assert (E : rev (firstn (Z.to_nat limit) sorted) = lastn n turns).
    { unfold sorted. rewrite (sort_desc_chronological turns Hc).
      rewrite firstn_rev, rev_involutive.
      unfold lastn, n. f_equal. lia. }
    split; [exact E|].
    rewrite E. unfold lastn. now apply StronglySorted_skipn.
Qed.

Lemma recent_returns_newest_turns_witness :
  exists window,
    get_short_term_messages "u" (Some "s") 3 busy_world
    = (Returned window, busy_world)
    /\ window = [Message.mk "u" (Some "s") "assistant" "hi" 2;
                 Message.mk "u" (Some "s") "user" "how are you" 3;
                 Message.mk "u" (Some "s") "assistant" "fine" 4].
Proof.
  destruct (recent_returns_newest_turns_ascending "u" (Some "s") 3 busy_world)
    as [window [Hrun [Hwindow _]]]; [lia|].
  exists window. split; [exact Hrun | exact Hwindow].
Defined.

(** C3, the case the claim leaves out.  Three turns of one session carry
    the same stamp; with limit 2 the window holds the second and the first
    turn appended, in this order, where the last two turns appended are the
    second and the third. *)
Lemma equal_stamps_return_older_turns :
  partition "u" (Some "s") tied_world
  = [Message.mk "u" (Some "s") "user" "one" 7;
     Message.mk "u" (Some "s") "assistant" "two" 7;
     Message.mk "u" (Some "s") "user" "three" 7]
  /\ get_short_term_messages "u" (Some "s") 2 tied_world
     = (Returned [Message.mk "u" (Some "s") "assistant" "two" 7;
                  Message.mk "u" (Some "s") "user" "one" 7],
        tied_world)
  /\ lastn 2 (partition "u" (Some "s") tied_world)
     = [Message.mk "u" (Some "s") "assistant" "two" 7;
        Message.mk "u" (Some "s") "user" "three" 7]
  /\ fst (get_short_term_messages "u" (Some "s") 2 tied_world)
     <> Returned (lastn 2 (partition "u" (Some "s") tied_world)).
Proof.
  split; [reflexivity|]. split; [reflexivity|]. split; [reflexivity|].
  vm_compute. intros H. discriminate H.
Qed.

(** X4.  With a limit that is not negative and whatever the stamps, equal
    ones included, [get_short_term_messages] changes nothing and returns
    min(N, limit) turns of the N turns of the partition, all of the given
    user and session, oldest first; no turn left out is newer than a turn
    returned. *)
Theorem window_holds_newest_turns_of_session
  (user_id : string) (session_id : option string) (limit : Z) (w : World) :
  0 <= limit ->
  exists window,
    get_short_term_messages user_id session_id limit w = (Returned window, w)
    /\ List.length window
       = Nat.min (List.length (partition user_id session_id w)) (Z.to_nat limit)
    /\ Forall (fun m => Message.user_id m = user_id
                        /\ Message.session_id m = session_id) window
    /\ StronglySorted
         (fun a b => Message.created_at a <= Message.created_at b) window
    /\ exists older,
         Permutation (older ++ window) (partition user_id session_id w)
         /\ Forall (fun o =>
                      Forall (fun m => Message.created_at o
                                       <= Message.created_at m) window) older.
Proof.
  intros Hlimit.
  set (turns := partition user_id session_id w).
  set (sorted := sort_desc newer_message turns).
  assert (Hsorted : StronglySorted
                      (fun a b => Message.created_at b <= Message.created_at a)
                      sorted).
  { eapply StronglySorted_weaken;
      [|apply (sort_desc_sorted newer_message newer_message_total
                 newer_message_trans)].
    intros a b H. now apply Z.leb_le. }
  exists (rev (firstn (Z.to_nat limit) sorted)).
  split; [|split; [|split; [|split]]].
  - destruct (wp_run _ _ _ (get_short_term_messages_spec user_id session_id
                              limit w Hlimit)) as [l [w' [Hrun [-> ->]]]].
    exact Hrun.
  - rewrite length_rev, length_firstn. unfold sorted.
    rewrite sort_desc_length. lia.
  - apply Forall_rev, Forall_firstn.
    eapply Permutation_Forall; [symmetry; apply sort_desc_perm|].
    apply Forall_forall. intros m Hm. apply filter_In in Hm as [_ Hm].
    unfold in_session in Hm. apply andb_true_iff in Hm.
    now rewrite String.eqb_eq, session_eqb_eq in Hm.
  - apply (StronglySorted_rev
             (fun a b => Message.created_at b <= Message.created_at a)).
    now apply StronglySorted_firstn.
  - exists (skipn (Z.to_nat limit) sorted). split.
    + rewrite Permutation_app_comm.
      rewrite <- (Permutation_rev (firstn (Z.to_nat limit) sorted)).
      rewrite firstn_skipn. apply sort_desc_perm.
    + rewrite <- (firstn_skipn (Z.to_nat limit) sorted) in Hsorted.
      apply StronglySorted_app_cross in Hsorted.
      apply Forall_forall. intros o Ho. apply Forall_rev.
      apply Forall_forall. intros m Hm.
      rewrite Forall_forall in Hsorted.
      pose proof (Hsorted m Hm) as Hcross.
      rewrite Forall_forall in Hcross. now apply Hcross.
Qed.

Lemma window_holds_newest_turns_witness :
  exists window,
    get_short_term_messages "u" (Some "s") 2 busy_world = (Returned window, busy_world)
    /\ List.length window = 2%nat.
Proof.
  destruct (window_holds_newest_turns_of_session "u" (Some "s") 2 busy_world)
    as [window [Hrun [Hlen _]]]; [lia|].
  exists window. split; [exact Hrun | exact Hlen].
Defined.

(** The newest element goes first. *)
Lemma sort_desc_newest {A} (ge : A -> A -> bool) (d : A) (l : list A) :
  Forall (fun y => ge y d = false) l ->
  sort_desc ge (l ++ [d]) = d :: sort_desc ge l.
Proof.
  induction 1 as [|x l Hx _ IH]; [reflexivity|].
  simpl. rewrite IH. simpl. now rewrite Hx.
Qed.

(** X5.  A message saved with a stamp later than the stamps of its
    session is read back at once: whatever the limit, from 1 on, the window
    fetched after [save_message] ends with the message just saved. *)
Theorem saved_message_closes_window
  (env : Env) (user_id : string) (session_id : option string) (role content : string) (limit : Z)
  (w : World) :
  1 <= limit ->
  Forall (fun m => Message.created_at m < utcnow env (ticks w))
    (partition user_id session_id w) ->
  exists earlier w',
    (save_message env user_id session_id role content ;;
     get_short_term_messages user_id session_id limit) w
    = (Returned
         (earlier ++ [Message.mk user_id session_id role content
                        (utcnow env (ticks w))])%list, w').
Proof.
  intros Hlimit Hpast.
  set (m := Message.mk user_id session_id role content (utcnow env (ticks w))).
  destruct (wp_run _ _ _ (save_message_spec env user_id session_id role
                            content w)) as [[] [w1 [Hsave G]]].
  assert (Hl : 0 <= limit) by lia.
  destruct (wp_run _ _ _ (get_short_term_messages_spec user_id session_id
                            limit w1 Hl)) as [l [w' [Hrun [-> ->]]]].
  unfold bind. rewrite Hsave, Hrun.
  unfold partition. rewrite (grows_messages _ _ _ _ _ _ G), filter_app.
  fold m. simpl filter.
  replace (in_session user_id session_id m) with true
    by (symmetry; apply in_session_refl).
  fold (partition user_id session_id w).
  rewrite sort_desc_newest.
  - destruct (Z.to_nat limit) as [|k] eqn:Ek; [lia|].
    simpl. eexists. exists w1. reflexivity.
  - eapply Forall_impl; [|exact Hpast].
    intros y Hy. unfold newer_message, m. simpl. now apply Z.leb_gt.
Qed.

Lemma saved_message_closes_window_witness :
  exists earlier w',
    (save_message sample_env "u" (Some "s") "user" "and you?" ;;
     get_short_term_messages "u" (Some "s") 3) busy_world
    = (Returned
         (earlier ++ [Message.mk "u" (Some "s") "user" "and you?" 1005])%list, w').
Proof.
  apply (saved_message_closes_window sample_env "u" (Some "s") "user" "and you?" 3
           busy_world).
  - lia.
  - unfold partition. simpl. repeat (constructor; [simpl; lia|]). constructor.
Defined.

(** ** The relevance ranker *)

(** X6.  Whatever [top_k], [get_relevant_episodes] writes nothing and
    returns only stored episodes of the given user, of any session, each
    with the similarity of its stored embedding to the embedding of the
    query: no episode of another user is ever ranked. *)
Theorem ranked_episodes_belong_to_user
  (env : Env) (user_id message : string) (top_k : Z) (w : World) :
  exists ranked w',
    get_relevant_episodes env user_id message top_k w = (Returned ranked, w')
    /\ messages_collection w' = messages_collection w
    /\ summaries_collection w' = summaries_collection w
    /\ episodes_collection w' = episodes_collection w
    /\ Forall (fun r =>
                 In (episode r) (episodes_collection w)
                 /\ Episode.user_id (episode r) = user_id
                 /\ similarity r
                    = cosine_similarity_score env
                        (embedded env (ticks w) message)
                        (Episode.embedding (episode r))) ranked.
Proof.
  unfold get_relevant_episodes, bind. rewrite get_embedding_run.
  unfold find_episodes, ret. simpl.
  do 2 eexists. split; [reflexivity|]. repeat split.
  set (scan := map _ _).
  assert (Hscan : Forall (fun r =>
                 In (episode r) (episodes_collection w)
                 /\ Episode.user_id (episode r) = user_id
                 /\ similarity r
                    = cosine_similarity_score env
                        (embedded env (ticks w) message)
                        (Episode.embedding (episode r))) scan).
  { apply Forall_forall. intros r Hr. unfold scan in Hr.
    apply in_map_iff in Hr as [e [<- He]].
    apply filter_In in He as [He Hu]. apply String.eqb_eq in Hu.
    simpl. auto. }
  assert (Hsorted := Permutation_Forall
                       (Permutation_sym (sort_desc_perm more_similar scan)) Hscan).
  unfold slice_to. destruct (top_k <? 0); now apply Forall_firstn.
Qed.

(** ** Digests written and read back *)

Lemma generate_session_summary_run
  (env : Env) (user_id : string) (session_id : option string) (w : World) :
  partition user_id session_id w <> [] ->
  exists prompt,
    generate_session_summary env user_id session_id w
    = (Returned (generated env (ticks w) prompt),
       {| messages_collection := messages_collection w;
          summaries_collection :=
            (summaries_collection w
             ++ [Summary.mk user_id session_id "session"
                   (generated env (ticks w) prompt)
                   (utcnow env (S (ticks w)))])%list;
          episodes_collection := episodes_collection w;
          ticks := S (S (ticks w)) |}).
Proof.
  intros Hne. unfold generate_session_summary, bind at 1, find_messages.
  fold (partition user_id session_id w).
  destruct (firstn 20 (sort_desc newer_message (partition user_id session_id w)))
    eqn:F.
  { destruct (partition user_id session_id w); [congruence|].
    apply firstn_S_nil_iff, sort_desc_nil_iff in F. discriminate. }
  eexists. unfold bind. rewrite get_ollama_response_run. reflexivity.
Qed.

Lemma update_lifetime_summary_run (env : Env) (user_id : string) (w : World) :
  filter (session_scope_of user_id) (summaries_collection w) <> [] ->
  exists prompt,
    update_lifetime_summary env user_id w
    = (Returned (generated env (ticks w) prompt),
       {| messages_collection := messages_collection w;
          summaries_collection :=
            (summaries_collection w
             ++ [Summary.mk user_id None "user"
                   (generated env (ticks w) prompt)
                   (utcnow env (S (ticks w)))])%list;
          episodes_collection := episodes_collection w;
          ticks := S (S (ticks w)) |}).
Proof.
  intros Hne. unfold update_lifetime_summary, bind at 1, find_summaries.
  destruct (firstn 5 (sort_desc newer_summary
                        (filter (session_scope_of user_id)
                           (summaries_collection w)))) eqn:F.
  { destruct (filter (session_scope_of user_id) (summaries_collection w));
      [congruence|].
    apply firstn_S_nil_iff, sort_desc_nil_iff in F. discriminate. }
  eexists. unfold bind. rewrite get_ollama_response_run. reflexivity.
Qed.

(** X7.  The session digest is read back: when the session has turns and
    its digests were stamped before the clock reading of the write, the
    summary that [generate_session_summary] returns is the session summary
    that [get_long_term_summaries] finds afterwards. *)
Theorem session_digest_is_read_back
  (env : Env) (user_id : string) (session_id : option string) (w : World) :
  partition user_id session_id w <> [] ->
  Forall (fun d => Summary.created_at d < utcnow env (S (ticks w)))
    (filter (session_digest_of user_id session_id) (summaries_collection w)) ->
  exists summary w' lts,
    generate_session_summary env user_id session_id w = (Returned summary, w')
    /\ get_long_term_summaries user_id session_id w' = (Returned lts, w')
    /\ lt_session lts = Some summary.
Proof.
  intros Hne Hpast.
  destruct (generate_session_summary_run env user_id session_id w Hne)
    as [prompt Hrun].
  do 3 eexists. split; [exact Hrun|]. split; [reflexivity|].
  simpl. rewrite filter_app. simpl.
  unfold session_digest_of at 2. simpl.
  rewrite String.eqb_refl, session_eqb_refl. simpl.
  rewrite sort_desc_newest; [reflexivity|].
  eapply Forall_impl; [|exact Hpast].
  intros y Hy. unfold newer_summary. simpl. now apply Z.leb_gt.
Qed.

Lemma session_digest_is_read_back_witness :
  exists summary w' lts,
    generate_session_summary sample_env "u" (Some "s") busy_world
    = (Returned summary, w')
    /\ get_long_term_summaries "u" (Some "s") w' = (Returned lts, w')
    /\ lt_session lts = Some summary.
Proof.
  apply (session_digest_is_read_back sample_env "u" (Some "s") busy_world).
  - discriminate.
  - constructor.
Defined.

(** X8.  The lifetime digest is read back, for every session of the user:
    when the user has a session digest and the lifetime digests were
    stamped before the clock reading of the write, the text that
    [update_lifetime_summary] returns is the lifetime summary that
    [get_long_term_summaries] finds afterwards, whatever the session asked
    for. *)
Theorem lifetime_digest_is_read_back
  (env : Env) (user_id : string) (w : World) :
  filter (session_scope_of user_id) (summaries_collection w) <> [] ->
  Forall (fun d => Summary.created_at d < utcnow env (S (ticks w)))
    (filter (user_digest_of user_id) (summaries_collection w)) ->
  exists text w',
    update_lifetime_summary env user_id w = (Returned text, w')
    /\ forall session_id,
         exists lts,
           get_long_term_summaries user_id session_id w' = (Returned lts, w')
           /\ lt_lifetime lts = Some text.
Proof.
  intros Hne Hpast.
  destruct (update_lifetime_summary_run env user_id w Hne) as [prompt Hrun].
  do 2 eexists. split; [exact Hrun|].
  intros session_id. eexists. split; [reflexivity|].
  simpl. rewrite (filter_app (user_digest_of user_id)). simpl.
  unfold user_digest_of at 2. simpl. rewrite !String.eqb_refl. simpl.
  rewrite sort_desc_newest; [reflexivity|].
  eapply Forall_impl; [|exact Hpast].
  intros y Hy. unfold newer_summary. simpl. now apply Z.leb_gt.
Qed.

Lemma lifetime_digest_is_read_back_witness :
  exists text w',
    update_lifetime_summary sample_env "u" busy_world = (Returned text, w')
    /\ exists lts,
         get_long_term_summaries "u" (Some "another session") w' = (Returned lts, w')
         /\ lt_lifetime lts = Some text.
Proof.
  destruct (lifetime_digest_is_read_back sample_env "u" busy_world)
    as [text [w' [Hrun Hread]]].
  - discriminate.
  - constructor.
  - exists text, w'. split; [exact Hrun | apply Hread].
Defined.

(** X9.  [update_lifetime_summary] reads the session digests of its user
    and nothing else.  A user without session digest gets the empty string
    and no write, no tick is consumed; and in two stores that agree on the
    session digests of the user, at the same tick, the text returned is the
    same: lifetime digests, digests of other users, turns and episodes do
    not enter it. *)
Theorem lifetime_summary_reads_only_session_digests
  (env : Env) (user_id : string) (w1 w2 : World) :
  filter (session_scope_of user_id) (summaries_collection w1)
  = filter (session_scope_of user_id) (summaries_collection w2) ->
  ticks w1 = ticks w2 ->
  fst (update_lifetime_summary env user_id w1)
  = fst (update_lifetime_summary env user_id w2)
  /\ (filter (session_scope_of user_id) (summaries_collection w1) = [] ->
      update_lifetime_summary env user_id w1 = (Returned "", w1)).
Proof.
  intros Hsame Hticks. split.
  - unfold update_lifetime_summary, bind at 1, find_summaries.
    unfold bind at 4, find_summaries. rewrite Hsame.
    destruct (firstn 5 _); [reflexivity|].
    unfold bind. rewrite !get_ollama_response_run, Hticks. reflexivity.
  - intros Hnone. unfold update_lifetime_summary, bind, find_summaries.
    rewrite Hnone. reflexivity.
Qed.

Lemma lifetime_summary_reads_only_witness :
  fst (update_lifetime_summary sample_env "u" busy_world)
  = fst (update_lifetime_summary sample_env "u" crowded_world).
Proof.
  apply (lifetime_summary_reads_only_session_digests sample_env "u"
           busy_world crowded_world); reflexivity.
Defined.

(** ** Episodic extraction *)

Lemma lstrip_length (s : string) :
  (String.length (PyStr.lstrip s) <= String.length s)%nat.
Proof.
  induction s as [|c s IH]; simpl; [lia|].
  destruct (PyStr.is_space c); simpl; lia.
Qed.

Lemma rstrip_length (s : string) :
  (String.length (PyStr.rstrip s) <= String.length s)%nat.
Proof.
  induction s as [|c s IH]; simpl; [lia|].
  destruct (PyStr.rstrip s); [destruct (PyStr.is_space c)|]; simpl in *; lia.
Qed.

Lemma strip_length (s : string) :
  (String.length (PyStr.strip s) <= String.length s)%nat.
Proof.
  unfold PyStr.strip.
  pose proof (rstrip_length (PyStr.lstrip s)). pose proof (lstrip_length s). lia.
Qed.

(** The pieces of a split are no longer than the text. *)
Lemma split_pieces_length (sep : ascii) (s : string) :
  Forall (fun piece => (String.length piece <= String.length s)%nat)
    (PyStr.split sep s).
Proof.
  induction s as [|c s IH]; simpl.
  - repeat constructor.
  - destruct (Ascii.eqb c sep).
    + constructor; [simpl; lia|].
      eapply Forall_impl; [|exact IH]. intros piece H. simpl in H |- *. lia.
    + destruct (PyStr.split sep s) as [|p ps].
      * constructor; [simpl; lia | constructor].
      * inversion IH; subst. constructor; [simpl; lia|].
        eapply Forall_impl; [|eassumption]. intros piece H. simpl in H |- *. lia.
Qed.

Lemma short_message_has_no_candidate (message : string) :
  (String.length message <= 10)%nat -> candidates message = [].
Proof.
  intros Hshort. unfold candidates.
  pose proof (split_pieces_length "." message) as Hpieces.
  induction Hpieces as [|piece ps Hp _ IH]; [reflexivity|].
  simpl. rewrite IH.
  pose proof (strip_length piece) as Hs.
  unfold length_gate.
  replace (10 <? String.length (PyStr.strip piece))%nat with false;
    [reflexivity|].
  symmetry. apply Nat.ltb_ge. lia.
Qed.

(** X10.  A message of at most 10 characters yields no episode:
    [extract_episodes] returns the empty list and leaves the world
    untouched, so it asks for no embedding and reads no clock. *)
Theorem short_message_yields_no_episode
  (env : Env) (user_id : string) (session_id : option string) (message : string) (w : World) :
  (String.length message <= 10)%nat ->
  extract_episodes env user_id session_id message w = (Returned [], w).
Proof.
  intros Hshort.
  destruct (wp_run _ _ _ (extract_episodes_spec env user_id session_id message w))
    as [facts [w' [Hrun [G Hmap]]]].
  rewrite (short_message_has_no_candidate message Hshort) in Hmap.
  destruct facts; [|discriminate].
  rewrite Hrun. f_equal.
  destruct G as [H1 H2 H3 H4]. simpl in *. rewrite app_nil_r in *.
  destruct w, w'; simpl in *. subst. f_equal. lia.
Qed.

Lemma short_message_yields_no_episode_witness :
  extract_episodes outage_env "u" (Some "s") "I love it." busy_world
  = (Returned [], busy_world).
Proof.
  apply short_message_yields_no_episode. simpl. lia.
Defined.

Lemma extract_loop_embeddings (env : Env) (user_id : string) (session_id : option string)
  (sentences : list string) :
  forall (facts : list Episode.t) (w : World),
    Forall (fun e => exists k, Episode.embedding e = embedded env k (Episode.fact e))
      facts ->
    wp (extract_loop env user_id session_id sentences facts)
      (fun out _ =>
         Forall (fun e => exists k, Episode.embedding e
                                    = embedded env k (Episode.fact e)) out) w.
Proof.
  induction sentences as [|sentence rest IH]; intros facts w Hfacts.
  - apply wp_ret. exact Hfacts.
  - simpl extract_loop.
    destruct (length_gate (PyStr.strip sentence)); [|now apply IH].
    rewrite score_importance_above_threshold.
    eapply wp_bind_run; [apply get_embedding_run|].
    eapply wp_bind_run; [reflexivity|].
    eapply wp_bind_run; [reflexivity|].
    apply IH. apply Forall_app. split; [exact Hfacts|].
    constructor; [|constructor]. simpl. eauto.
Qed.

(** X11.  Episodes extracted while the embedding service is down carry a
    vector of 384 components, and such an episode has similarity 0.0 to
    every query vector of another dimension: it is stored, and ranks with
    the fallback score against the embeddings of a service of another
    dimension. *)
Theorem outage_episodes_score_zero
  (env : Env) (user_id : string) (session_id : option string) (message : string) (w : World) :
  (forall k text, post_embeddings env k EMBED_MODEL text = None) ->
  exists facts w',
    extract_episodes env user_id session_id message w = (Returned facts, w')
    /\ map Episode.fact facts = candidates message
    /\ Forall (fun e =>
                 List.length (Episode.embedding e) = 384%nat
                 /\ forall query,
                      List.length query <> 384%nat ->
                      cosine_similarity_score env query (Episode.embedding e)
                      = 0%Q) facts.
Proof.
  intros Hdown.
  destruct (wp_run _ _ _ (extract_episodes_spec env user_id session_id message w))
    as [facts [w' [Hrun [_ Hmap]]]].
  exists facts, w'. split; [exact Hrun|]. split; [exact Hmap|].
  pose proof (extract_loop_embeddings env user_id session_id
                (PyStr.split "." message) [] w (Forall_nil _)) as Hemb.
  unfold wp in Hemb. unfold extract_episodes in Hrun. rewrite Hrun in Hemb.
  eapply Forall_impl; [|exact Hemb].
  intros e [k He].
  assert (Hlen : List.length (Episode.embedding e) = 384%nat).
  { rewrite He. unfold embedded. rewrite Hdown, length_map, length_seq.
    reflexivity. }
  split; [exact Hlen|].
  intros query Hq. apply cosine_similarity_score_fallback. right. congruence.
Qed.

Lemma outage_episodes_score_zero_witness :
  exists facts w',
    extract_episodes
      {| utcnow := utcnow sample_env;
         post_generate := post_generate sample_env;
         post_embeddings := fun _ _ _ => None;
         random_rand := random_rand sample_env;
         cosine_value := cosine_value sample_env |}
      "u" (Some "s") "I love green tea." empty_world = (Returned facts, w')
    /\ map Episode.fact facts = ["I love green tea"].
Proof.
  destruct (outage_episodes_score_zero
              {| utcnow := utcnow sample_env;
                 post_generate := post_generate sample_env;
                 post_embeddings := fun _ _ _ => None;
                 random_rand := random_rand sample_env;
                 cosine_value := cosine_value sample_env |}
              "u" (Some "s") "I love green tea." empty_world)
    as [facts [w' [Hrun [Hmap _]]]].
  - reflexivity.
  - exists facts, w'. split; [exact Hrun | exact Hmap].
Defined.

(** ** The prompt *)

Lemma sapp_assoc (a b c : string) : (a ++ b) ++ c = a ++ b ++ c.
Proof. induction a as [|x a IH]; simpl; [reflexivity | now rewrite IH]. Qed.

Lemma sapp_nil_r (a : string) : a ++ "" = a.
Proof. induction a as [|x a IH]; simpl; [reflexivity | now rewrite IH]. Qed.

Lemma Occurs_refl (s : string) : Occurs s s.
Proof. exists "", "". simpl. now rewrite sapp_nil_r. Qed.

Lemma Occurs_app_l (w a b : string) : Occurs w a -> Occurs w (a ++ b).
Proof.
  intros [pre [post ->]]. exists pre, (post ++ b).
  now rewrite !sapp_assoc.
Qed.

Lemma Occurs_app_r (w a b : string) : Occurs w b -> Occurs w (a ++ b).
Proof.
  intros [pre [post ->]]. exists (a ++ pre), post.
  now rewrite !sapp_assoc.
Qed.

Lemma Occurs_join (sep p : string) (parts : list string) :
  In p parts -> Occurs p (PyStr.join sep parts).
Proof.
  induction parts as [|q parts IH]; [contradiction|].
  intros [-> | Hin].
  - destruct parts; simpl; [apply Occurs_refl|].
    apply Occurs_app_l, Occurs_refl.
  - destruct parts as [|r parts]; [contradiction|].
    change (PyStr.join sep (q :: r :: parts))
      with (q ++ sep ++ PyStr.join sep (r :: parts)).
    apply Occurs_app_r, Occurs_app_r, IH, Hin.
Qed.

Lemma build_prompt_sections (primer : string) (lts : LongTermSummaries)
  (window : list Message.t) (message : string) (facts : list ScoredEpisode) :
  build_prompt primer lts window message facts
  = PyStr.join (PyStr.newline ++ PyStr.newline)
      (primer :: prompt_sections lts window message facts).
Proof.
  unfold build_prompt, prompt_sections, truthy.
  destruct (lt_lifetime lts) as [[|c1 t1]|], (lt_session lts) as [[|c2 t2]|],
    window, facts; reflexivity.
Qed.

(** X12.  The prompt starts with the system primer and holds the line of
    the current message, every turn of the window as a "role: content"
    line, every ranked fact as a bullet, and each digest that is present
    with a text that is not empty; with no digest text, no window and no
    fact it is the primer, a blank line and the line of the message. *)
Theorem prompt_holds_every_section
  (primer : string) (lts : LongTermSummaries) (window : list Message.t)
  (message : string) (facts : list ScoredEpisode) :
  let prompt := build_prompt primer lts window message facts in
  (exists rest, prompt = primer ++ rest)
  /\ Occurs ("User: " ++ message) prompt
  /\ (forall m, In m window ->
                Occurs (Message.role m ++ ": " ++ Message.content m) prompt)
  /\ (forall f, In f facts -> Occurs ("- " ++ Episode.fact (episode f)) prompt)
  /\ (forall t, lt_lifetime lts = Some t -> t <> "" ->
                Occurs ("User Profile: " ++ t) prompt)
  /\ (forall t, lt_session lts = Some t -> t <> "" ->
                Occurs ("Session Context: " ++ t) prompt)
  /\ (truthy (lt_lifetime lts) = false -> truthy (lt_session lts) = false ->
      window = [] -> facts = [] ->
      prompt = primer ++ PyStr.newline ++ PyStr.newline ++ "User: " ++ message).
Proof.
  intros prompt. unfold prompt. rewrite build_prompt_sections.
  set (sep := PyStr.newline ++ PyStr.newline).
  set (sections := prompt_sections lts window message facts).
  assert (Hpart : forall p, In p sections -> Occurs p (PyStr.join sep (primer :: sections))).
  { intros p Hp. apply Occurs_join. now right. }
  split; [|split; [|split; [|split; [|split; [|split]]]]].
  - destruct sections as [|s ss]; simpl.
    + exists "". now rewrite sapp_nil_r.
    + eexists. reflexivity.
  - apply Hpart. unfold sections, prompt_sections.
    rewrite !in_app_iff. simpl. tauto.
  - intros m Hm.
    assert (Hline : Occurs (render_turn m)
                      ("Recent conversation:" ++ PyStr.newline
                       ++ PyStr.join PyStr.newline (map render_turn window))).
    { apply Occurs_app_r, Occurs_app_r, Occurs_join. now apply in_map. }
    destruct Hline as [pre [post Hline]].
    destruct (Hpart ("Recent conversation:" ++ PyStr.newline
                     ++ PyStr.join PyStr.newline (map render_turn window)))
      as [pre' [post' Hsec]].
    { unfold sections, prompt_sections. rewrite !in_app_iff.
      destruct window; [contradiction|]. simpl. tauto. }
    rewrite Hsec, Hline. exists (pre' ++ pre), (post ++ post').
    unfold render_turn. now rewrite !sapp_assoc.
  - intros f Hf.
    assert (Hline : Occurs ("- " ++ Episode.fact (episode f))
                      ("Relevant facts:" ++ PyStr.newline
                       ++ PyStr.join PyStr.newline
                            (map (fun fact => "- " ++ Episode.fact (episode fact))
                               facts))).
    { apply Occurs_app_r, Occurs_app_r, Occurs_join.
      apply (in_map (fun fact => "- " ++ Episode.fact (episode fact))). exact Hf. }
    destruct Hline as [pre [post Hline]].
    destruct (Hpart ("Relevant facts:" ++ PyStr.newline
                     ++ PyStr.join PyStr.newline
                          (map (fun fact => "- " ++ Episode.fact (episode fact))
                             facts)))
      as [pre' [post' Hsec]].
    { unfold sections, prompt_sections. rewrite !in_app_iff.
      destruct facts; [contradiction|]. simpl. tauto. }
    rewrite Hsec, Hline. exists (pre' ++ pre), (post ++ post').
    now rewrite !sapp_assoc.
  - intros t Ht Hne. apply Hpart. unfold sections, prompt_sections.
    rewrite Ht, !in_app_iff. destruct t; [congruence|]. simpl. tauto.
  - intros t Ht Hne. apply Hpart. unfold sections, prompt_sections.
    rewrite Ht, !in_app_iff. destruct t; [congruence|]. simpl. tauto.
  - intros Hl Hs -> ->. unfold sections, prompt_sections, truthy in *.
    destruct (lt_lifetime lts) as [[|c1 t1]|]; try discriminate;
      destruct (lt_session lts) as [[|c2 t2]|]; try discriminate;
      simpl; unfold sep; rewrite ?sapp_assoc; reflexivity.
Qed.

Lemma prompt_holds_every_section_witness :
  Occurs "user: hello"
    (build_prompt system_primer {| lt_session := None; lt_lifetime := Some "" |}
       (messages_collection busy_world) "hi" [])
  /\ build_prompt system_primer {| lt_session := None; lt_lifetime := Some "" |}
       [] "hi" []
     = system_primer ++ PyStr.newline ++ PyStr.newline ++ "User: hi".
Proof.
  split.
  - destruct (prompt_holds_every_section system_primer
                {| lt_session := None; lt_lifetime := Some "" |}
                (messages_collection busy_world) "hi" [])
      as [_ [_ [Hturn _]]].
    apply (Hturn (Message.mk "u" (Some "s") "user" "hello" 1)). simpl. tauto.
  - destruct (prompt_holds_every_section system_primer
                {| lt_session := None; lt_lifetime := Some "" |} [] "hi" [])
      as [_ [_ [_ [_ [_ [_ Hbare]]]]]].
    apply Hbare; reflexivity.
Defined.

(** ** The response of a turn *)

Lemma get_relevant_episodes_result (env : Env) (user_id message : string)
  (top_k : Z) (w : World) :
  0 <= top_k ->
  wp (get_relevant_episodes env user_id message top_k)
    (fun ranked w' =>
       grows w w' [] [] [] 1
       /\ (List.length ranked <= Z.to_nat top_k)%nat
       /\ Forall (fun r => In (episode r) (episodes_collection w)
                           /\ Episode.user_id (episode r) = user_id) ranked) w.
Proof.
  intros Hk. unfold get_relevant_episodes.
  eapply wp_bind_run; [apply get_embedding_run|].
  unfold wp, bind, find_episodes, ret, slice_to. simpl.
  replace (top_k <? 0) with false by (symmetry; apply Z.ltb_ge; exact Hk).
  split; [constructor; simpl; rewrite ?app_nil_r; auto; lia|].
  split; [rewrite length_firstn; lia|].
  apply Forall_firstn.
  eapply Permutation_Forall; [symmetry; apply sort_desc_perm|].
  apply Forall_forall. intros r Hr.
  apply in_map_iff in Hr as [e [<- He]].
  apply filter_In in He as [He Hu]. apply String.eqb_eq in Hu. simpl. auto.
Qed.

Lemma get_long_term_summaries_value (user_id : string) (session_id : option string) (w : World) :
  wp (get_long_term_summaries user_id session_id)
    (fun lts w' =>
       w' = w /\ get_long_term_summaries user_id session_id w = (Returned lts, w))
    w.
Proof. unfold wp. simpl. auto. Qed.

Lemma get_long_term_summaries_same (user_id : string) (session_id : option string)
  (w1 w2 : World) (lts : LongTermSummaries) :
  summaries_collection w1 = summaries_collection w2 ->
  get_long_term_summaries user_id session_id w1 = (Returned lts, w1) ->
  get_long_term_summaries user_id session_id w2 = (Returned lts, w2).
Proof.
  unfold get_long_term_summaries, bind, find_summaries, ret.
  intros -> H. inversion H. reflexivity.
Qed.

Lemma summarization_tail_spec (env : Env) (user_id : string) (session_id : option string)
  (fire nested : bool) (w : World) :
  wp (if fire then
        generate_session_summary env user_id session_id ;;
        if nested then update_lifetime_summary env user_id ;; ret tt else ret tt
      else ret tt)
    (fun _ w' => episodes_collection w' = episodes_collection w) w.
Proof.
  destruct fire; [|now apply wp_ret].
  wp_step generate_session_summary_spec.
  intros text w1 H1.
  assert (E1 : episodes_collection w1 = episodes_collection w).
  { destruct H1 as [[_ [_ ->]] | [_ [now G]]]; [reflexivity|].
    rewrite (grows_episodes _ _ _ _ _ _ G). apply app_nil_r. }
  destruct nested; [|apply wp_ret; exact E1].
  wp_step update_lifetime_summary_spec.
  intros text' w2 H2. apply wp_ret. rewrite <- E1.
  destruct H2 as [[_ [_ ->]] | [_ [now G]]]; [reflexivity|].
  rewrite (grows_episodes _ _ _ _ _ _ G). apply app_nil_r.
Qed.

Lemma turn_window_bounds (request : ChatRequest.t) (w : World) :
  1 <= turn_window_length request w <= 16.
Proof.
  unfold turn_window_length, SHORT_TERM_N.
  pose proof (Z_len_nonneg (partition (ChatRequest.user_id request)
                              (ChatRequest.session_id request) w)).
  lia.
Qed.

(** X13.  The response of a turn reports the memory as the turn found it:
    a window of 1 to 16 turns (the message just recorded is one of them), the
    session and lifetime digests that were current before the turn (a digest
    written by the turn itself is not in it), and at most 5 facts, each of a
    stored episode of the user of the request. *)
Theorem response_reports_memory_found
  (env : Env) (request : ChatRequest.t) (w : World) :
  exists body w' lts ranked,
    chat env request w = (Returned (Http200 body), w')
    /\ get_long_term_summaries (ChatRequest.user_id request)
         (ChatRequest.session_id request) w = (Returned lts, w)
    /\ long_term_summary (memory_used body) = lt_lifetime lts
    /\ session_summary (memory_used body) = lt_session lts
    /\ short_term_count (memory_used body) = turn_window_length request w
    /\ 1 <= short_term_count (memory_used body) <= 16
    /\ episodic_facts (memory_used body)
       = map (fun ep => (Episode.fact (episode ep),
                         Episode.importance (episode ep))) ranked
    /\ (List.length ranked <= 5)%nat
    /\ Forall (fun r => In (episode r) (episodes_collection w')
                        /\ Episode.user_id (episode r)
                           = ChatRequest.user_id request) ranked.
Proof.
  assert (Hwp :
    wp (chat env request)
      (fun res w' =>
         exists lts ranked reply,
           res = Http200
                   {| reply := reply;
                      memory_used :=
                        {| short_term_count := turn_window_length request w;
                           long_term_summary := lt_lifetime lts;
                           session_summary := lt_session lts;
                           episodic_facts :=
                             map (fun ep => (Episode.fact (episode ep),
                                             Episode.importance (episode ep)))
                               ranked |} |}
           /\ get_long_term_summaries (ChatRequest.user_id request)
                (ChatRequest.session_id request) w = (Returned lts, w)
           /\ (List.length ranked <= 5)%nat
           /\ Forall (fun r => In (episode r) (episodes_collection w')
                               /\ Episode.user_id (episode r)
                                  = ChatRequest.user_id request) ranked) w).
  { unfold chat. cbv zeta. apply wp_try_except.
    wp_step save_message_spec. intros _ w1 G1.
    wp_step get_short_term_messages_spec; [|unfold SHORT_TERM_N; lia].
    intros window w1' [E Hwindow]. subst w1'.
    assert (Hlen : Z_len window = turn_window_length request w).
    { subst window.
      apply turn_window_Z_len
        with (m := Message.mk (ChatRequest.user_id request)
                     (ChatRequest.session_id request) "user"
                     (ChatRequest.message request) (utcnow env (ticks w))).
      - apply in_session_refl.
      - apply G1. }
    clear Hwindow.
    wp_step get_long_term_summaries_value. intros lts w1' [E Hlts]. subst w1'.
    apply (get_long_term_summaries_same _ _ w1 w) in Hlts;
      [|rewrite (grows_summaries _ _ _ _ _ _ G1); apply app_nil_r].
    wp_step extract_episodes_spec. intros facts w2 [G2 _].
    wp_step get_relevant_episodes_result; [|unfold TOP_K_EPISODES; lia].
    intros ranked w3 [G3 [Hk Hranked]].
    wp_step get_ollama_response_spec. intros reply w4 [_ G4].
    wp_step save_message_spec. intros _ w5 G5.
    wp_step should_summarize_spec. intros fire w5' [E _]. subst w5'.
    wp_step summarization_tail_spec. intros _ w6 E6.
    apply wp_ret. exists lts, ranked, reply.
    split; [rewrite Hlen; reflexivity|]. split; [exact Hlts|].
    split; [exact Hk|].
    eapply Forall_impl; [|exact Hranked]. intros r [Hin Hu]. split; [|exact Hu].
    rewrite E6, (grows_episodes _ _ _ _ _ _ G5), (grows_episodes _ _ _ _ _ _ G4),
      (grows_episodes _ _ _ _ _ _ G3), !app_nil_r. exact Hin. }
  destruct (wp_run _ _ _ Hwp)
    as [res [w' [Hrun [lts [ranked [reply [Hres [Hlts [Hk Hranked]]]]]]]]].
  subst res. do 2 eexists. exists lts, ranked.
  split; [exact Hrun|]. split; [exact Hlts|]. simpl.
  repeat split; auto; apply turn_window_bounds.
Qed.

(** ** The memory endpoint *)

Lemma get_memory_run (isoformat : Z -> string) (user_id : string) (w : World) :
  get_memory isoformat user_id w
  = (Returned
       (Ok200
          {| MemoryResponse.short_term_messages :=
               map (turn_view isoformat)
                 (rev (firstn 16
                         (sort_desc newer_message
                            (partition user_id (latest_session user_id w) w))));
             MemoryResponse.session_summary :=
               option_map Summary.text
                 (hd_error
                    (sort_desc newer_summary
                       (filter (session_digest_of user_id
                                  (latest_session user_id w))
                          (summaries_collection w))));
             MemoryResponse.lifetime_summary :=
               option_map Summary.text
                 (hd_error
                    (sort_desc newer_summary
                       (filter (user_digest_of user_id)
                          (summaries_collection w))));
             MemoryResponse.recent_episodes :=
               map (episode_view isoformat)
                 (firstn 20
                    (sort_desc newer_episode
                       (filter (fun e => String.eqb (Episode.user_id e) user_id)
                          (episodes_collection w)))) |}),
     w).
Proof. reflexivity. Qed.

(** X14.  [get_memory] only reads: for every user and store it answers
    with status 200 and leaves the world as it is; it shows at most 16 turns
    and at most 20 episodes, and for a user without any turn it looks at the
    session "default" and shows no turn. *)
Theorem memory_view_only_reads
  (isoformat : Z -> string) (user_id : string) (w : World) :
  exists body,
    get_memory isoformat user_id w = (Returned (Ok200 body), w)
    /\ (List.length (MemoryResponse.short_term_messages body) <= 16)%nat
    /\ (List.length (MemoryResponse.recent_episodes body) <= 20)%nat
    /\ (filter (fun m => String.eqb (Message.user_id m) user_id)
          (messages_collection w) = [] ->
        latest_session user_id w = Some "default"
        /\ MemoryResponse.short_term_messages body = []).
Proof.
  eexists. split; [apply get_memory_run|].
  cbn [MemoryResponse.short_term_messages MemoryResponse.recent_episodes].
  split; [rewrite length_map, length_rev, length_firstn; lia|].
  split; [rewrite length_map, length_firstn; lia|].
  intros Hnone.
  assert (Hdefault : latest_session user_id w = Some "default").
  { unfold latest_session. rewrite Hnone. reflexivity. }
  split; [exact Hdefault|].
  replace (partition user_id (latest_session user_id w) w) with (@nil Message.t);
    [reflexivity|].
  symmetry. unfold partition.
  assert (Hall : forall l,
             filter (fun m => String.eqb (Message.user_id m) user_id) l = [] ->
             filter (in_session user_id (latest_session user_id w)) l = []).
  { induction l as [|m l IH]; simpl; [reflexivity|].
    unfold in_session at 1.
    destruct (String.eqb (Message.user_id m) user_id); [discriminate|].
    simpl. exact IH. }
  now apply Hall.
Qed.

Lemma memory_view_only_reads_witness :
  exists body,
    get_memory (fun _ => "t") "nobody" busy_world
    = (Returned (Ok200 body), busy_world)
    /\ MemoryResponse.short_term_messages body = [].
Proof.
  destruct (memory_view_only_reads (fun _ => "t") "nobody" busy_world)
    as [body [Hrun [_ [_ Hnone]]]].
  exists body. split; [exact Hrun|]. now apply Hnone.
Defined.

Lemma filter_user_chronological (user_id : string) (l : list Message.t) :
  chronological l ->
  chronological (filter (fun m => String.eqb (Message.user_id m) user_id) l).
Proof. apply StronglySorted_filter. Qed.

(** X15.  A turn is seen at once by [get_memory]: in a ledger kept in stamp
    order by an advancing clock, after a turn of a user the endpoint looks at
    the session of that turn, and the window it shows ends with the user's
    message and the reply. *)
Theorem memory_view_shows_last_turn
  (env : Env) (isoformat : Z -> string) (request : ChatRequest.t) (w : World) :
  monotone_clock env -> well_stamped env w ->
  exists answer w' body earlier,
    chat env request w = (Returned (Http200 answer), w')
    /\ latest_session (ChatRequest.user_id request) w'
       = ChatRequest.session_id request
    /\ get_memory isoformat (ChatRequest.user_id request) w'
       = (Returned (Ok200 body), w')
    /\ MemoryResponse.short_term_messages body
       = (earlier
          ++ [ {| tv_role := "user";
                  tv_content := ChatRequest.message request;
                  tv_created_at := isoformat (utcnow env (ticks w)) |};
               {| tv_role := "assistant";
                  tv_content := reply answer;
                  tv_created_at :=
                    isoformat (utcnow env (S (reply_tick request w))) |} ])%list.
Proof.
  intros Hclock Hw.
  pose proof (chat_keeps_well_stamped env request w Hclock Hw) as [Hsorted _].
  destruct (wp_run _ _ _ (chat_spec env request w))
    as [res [w' [Hrun [prompt [mu [facts [new [n H]]]]]]]].
  cbv zeta in H. destruct H as [Hres [_ [G _]]].
  rewrite Hrun in Hsorted. simpl in Hsorted.
  pose proof (grows_messages _ _ _ _ _ _ G) as Hm.
  set (u := ChatRequest.user_id request) in *.
  set (s := ChatRequest.session_id request) in *.
  set (mu_ := Message.mk u s "user" (ChatRequest.message request)
                (utcnow env (ticks w))) in *.
  set (ma := Message.mk u s "assistant"
               (generated env (reply_tick request w) prompt)
               (utcnow env (S (reply_tick request w)))) in *.
  assert (Hlatest : latest_session u w' = s).
  { unfold latest_session.
    rewrite (sort_desc_chronological _ (filter_user_chronological u _ Hsorted)).
    rewrite Hm, filter_app. simpl filter. unfold mu_, ma. simpl.
    rewrite !String.eqb_refl, rev_app_distr. reflexivity. }
  eexists. exists w'. eexists.
  exists (map (turn_view isoformat)
            (rev (firstn 14 (rev (filter (in_session u s)
                                    (messages_collection w)))))).
  split; [rewrite Hrun, Hres; reflexivity|].
  split; [exact Hlatest|].
  split; [apply get_memory_run|].
  cbn [MemoryResponse.short_term_messages]. rewrite Hlatest.
  unfold partition.
  rewrite (sort_desc_chronological _
             (StronglySorted_filter _ (in_session u s) _ Hsorted)).
  rewrite Hm, filter_app.
  replace (filter (in_session u s) [mu_; ma]) with [mu_; ma]
    by (unfold mu_, ma; simpl; now rewrite !in_session_refl).
  rewrite rev_app_distr.
  change (rev [mu_; ma]) with [ma; mu_].
  change (firstn 16 ([ma; mu_]
                     ++ rev (filter (in_session u s) (messages_collection w))))
    with (ma :: mu_ :: firstn 14
                         (rev (filter (in_session u s) (messages_collection w)))).
  cbn [rev]. rewrite !map_app, <- app_assoc. reflexivity.
Qed.

Lemma memory_view_shows_last_turn_witness :
  exists answer w' body earlier,
    chat sample_env hi_request empty_world = (Returned (Http200 answer), w')
    /\ get_memory (fun _ => "t") "u" w' = (Returned (Ok200 body), w')
    /\ MemoryResponse.short_term_messages body
       = (earlier
          ++ [ {| tv_role := "user"; tv_content := "hi"; tv_created_at := "t" |};
               {| tv_role := "assistant"; tv_content := reply answer;
                  tv_created_at := "t" |} ])%list.
Proof.
  destruct (memory_view_shows_last_turn sample_env (fun _ => "t") hi_request
              empty_world)
    as [answer [w' [body [earlier [Hrun [_ [Hmem Hview]]]]]]].
  - intros i j Hij. unfold sample_env. cbn [utcnow]. lia.
  - apply empty_world_well_stamped.
  - exists answer, w', body, earlier. auto.
Defined.

(** ** The aggregate endpoint *)

Lemma slen_app (a b : string) :
  String.length (a ++ b) = (String.length a + String.length b)%nat.
Proof. induction a as [|c a IH]; simpl; [reflexivity | now rewrite IH]. Qed.

(** The first [n] characters of a text that has them. *)
Lemma substring_head (n : nat) (s : string) :
  (n <= String.length s)%nat ->
  String.length (substring 0 n s) = n
  /\ exists rest, s = substring 0 n s ++ rest.
Proof.
  revert s; induction n as [|n IH]; intros s Hn.
  - destruct s; simpl; (split; [reflexivity | eexists; reflexivity]).
  - destruct s as [|c s]; simpl in *; [lia|].
    destruct (IH s) as [Hlen [rest Hrest]]; [lia|].
    split; [now rewrite Hlen|]. exists rest. now rewrite <- Hrest.
Qed.

Lemma preview_spec (text : string) :
  ((String.length text <= 100)%nat -> preview text = text)
  /\ ((100 < String.length text)%nat ->
      exists head rest,
        text = head ++ rest /\ String.length head = 100%nat
        /\ preview text = head ++ "...")
  /\ (String.length (preview text) <= 103)%nat.
Proof.
  unfold preview. destruct (100 <? String.length text)%nat eqn:E.
  - apply Nat.ltb_lt in E.
    destruct (substring_head 100 text) as [Hlen [rest Hrest]]; [lia|].
    split; [lia|]. split.
    + intros _. exists (substring 0 100 text), rest. auto.
    + rewrite slen_app, Hlen. simpl. lia.
  - apply Nat.ltb_ge in E. split; [reflexivity|]. split; [lia | lia].
Qed.

Lemma get_aggregate_run (isoformat date_to_string : Z -> string)
  (user_id : string) (w : World) :
  get_aggregate isoformat date_to_string user_id w
  = (Returned
       (Ok200
          {| AggregateResponse.daily_message_counts :=
               firstn 30
                 (sort_desc later_date
                    (group_count
                       (map (fun m => date_to_string (Message.created_at m))
                          (filter (fun m => String.eqb (Message.user_id m) user_id)
                             (messages_collection w)))));
             AggregateResponse.recent_summaries :=
               map (summary_view isoformat)
                 (firstn 10
                    (sort_desc newer_summary
                       (filter (fun s => String.eqb (Summary.user_id s) user_id)
                          (summaries_collection w))));
             AggregateResponse.recent_episodes :=
               map (episode_view isoformat)
                 (firstn 20
                    (sort_desc newer_episode
                       (filter (fun e => String.eqb (Episode.user_id e) user_id)
                          (episodes_collection w)))) |}),
     w).
Proof. reflexivity. Qed.

(** X16.  [get_aggregate] only reads: for every user and store it answers
    with status 200 and leaves the world as it is, with at most 30 days, 10
    summaries and 20 episodes.  Every summary shown is a stored digest of the
    user, under its scope; a text of at most 100 characters is shown whole, a
    longer one as its first 100 characters followed by "...", so no text
    shown has more than 103 characters. *)
Theorem aggregate_view_only_reads
  (isoformat date_to_string : Z -> string) (user_id : string) (w : World) :
  exists body,
    get_aggregate isoformat date_to_string user_id w = (Returned (Ok200 body), w)
    /\ (List.length (AggregateResponse.daily_message_counts body) <= 30)%nat
    /\ (List.length (AggregateResponse.recent_summaries body) <= 10)%nat
    /\ (List.length (AggregateResponse.recent_episodes body) <= 20)%nat
    /\ Forall (fun v =>
                 (String.length (sv_text v) <= 103)%nat
                 /\ exists d,
                      In d (summaries_collection w)
                      /\ Summary.user_id d = user_id
                      /\ sv_scope v = Summary.scope d
                      /\ ((String.length (Summary.text d) <= 100)%nat ->
                          sv_text v = Summary.text d)
                      /\ ((100 < String.length (Summary.text d))%nat ->
                          exists head rest,
                            Summary.text d = head ++ rest
                            /\ String.length head = 100%nat
                            /\ sv_text v = head ++ "..."))
         (AggregateResponse.recent_summaries body).
Proof.
  eexists. split; [apply get_aggregate_run|].
  cbn [AggregateResponse.daily_message_counts AggregateResponse.recent_summaries
         AggregateResponse.recent_episodes].
  split; [rewrite length_firstn; lia|].
  split; [rewrite length_map, length_firstn; lia|].
  split; [rewrite length_map, length_firstn; lia|].
  apply Forall_map, Forall_firstn.
  eapply Permutation_Forall; [symmetry; apply sort_desc_perm|].
  apply Forall_forall. intros d Hd. apply filter_In in Hd as [Hin Hu].
  apply String.eqb_eq in Hu.
  destruct (preview_spec (Summary.text d)) as [Hshort [Hlong Hlen]].
  split; [exact Hlen|]. exists d. simpl. auto.
Qed.

(** *** The order of the days *)

Lemma string_leb_trans (s1 s2 s3 : string) :
  String.leb s1 s2 = true -> String.leb s2 s3 = true -> String.leb s1 s3 = true.
Proof.
  unfold String.leb. revert s2 s3.
  induction s1 as [|c1 s1 IH]; intros [|c2 s2] [|c3 s3]; simpl; try easy.
  unfold Ascii.compare.
  destruct (N.compare_spec (N_of_ascii c1) (N_of_ascii c2)) as [E12|L12|G12];
    destruct (N.compare_spec (N_of_ascii c2) (N_of_ascii c3)) as [E23|L23|G23];
    destruct (N.compare_spec (N_of_ascii c1) (N_of_ascii c3)) as [E13|L13|G13];
    try easy; try lia.
  apply IH.
Qed.

Lemma later_date_total (a b : DailyCount) :
  later_date a b = true \/ later_date b a = true.
Proof. unfold later_date. destruct (String.leb_total (dc_date a) (dc_date b)); auto. Qed.

Lemma later_date_trans (a b c : DailyCount) :
  later_date a b = true -> later_date b c = true -> later_date a c = true.
Proof.
  unfold later_date. intros H1 H2. now apply string_leb_trans with (dc_date b).
Qed.

Lemma StronglySorted_distinct {A B} (R : A -> A -> Prop) (key : A -> B)
  (l : list A) :
  StronglySorted R l -> NoDup (map key l) ->
  StronglySorted (fun a b => R a b /\ key a <> key b) l.
Proof.
  induction 1 as [|x l Hs IH Hall]; simpl; intros Hnd; [constructor|].
  inversion Hnd as [|? ? Hnot Hnd']; subst.
  constructor; [now apply IH|].
  apply Forall_forall. intros y Hy. rewrite Forall_forall in Hall.
  split; [now apply Hall|].
  intros E. apply Hnot. rewrite E. now apply in_map.
Qed.

Lemma NoDup_firstn {A} (n : nat) (l : list A) : NoDup l -> NoDup (firstn n l).
Proof.
  intros H; revert n; induction H as [|x l Hx Hnd IH]; intros [|n]; simpl;
    try constructor; auto.
  intros Hin. apply Hx.
  rewrite <- (firstn_skipn n l). apply in_or_app. now left.
Qed.

(** *** The counts of the days *)

Lemma group_count_dates (keys : list string) :
  map dc_date (group_count keys) = nodup string_dec keys.
Proof.
  unfold group_count. rewrite map_map. simpl. apply map_id.
Qed.

Lemma group_count_In (keys : list string) (d : DailyCount) :
  In d (group_count keys) ->
  In (dc_date d) keys
  /\ dc_count d = Z_len (filter (String.eqb (dc_date d)) keys).
Proof.
  unfold group_count. rewrite in_map_iff. intros [k [<- Hk]].
  apply nodup_In in Hk. simpl. auto.
Qed.

Lemma count_of_member (k : string) (keys : list string) :
  In k keys -> 1 <= Z_len (filter (String.eqb k) keys).
Proof.
  intros Hin.
  assert (Hf : In k (filter (String.eqb k) keys))
    by (apply filter_In; split; [exact Hin | apply String.eqb_refl]).
  unfold Z_len. destruct (filter (String.eqb k) keys); [contradiction|].
  simpl List.length. lia.
Qed.

Lemma count_dated (g : Message.t -> string) (p : Message.t -> bool) (k : string)
  (l : list Message.t) :
  Z_len (filter (String.eqb k) (map g (filter p l)))
  = Z_len (filter (fun m => p m && String.eqb (g m) k) l).
Proof.
  unfold Z_len. f_equal.
  induction l as [|m l IH]; simpl; [reflexivity|].
  destruct (p m); simpl; [|exact IH].
  rewrite (String.eqb_sym k (g m)).
  destruct (String.eqb (g m) k); simpl; now rewrite IH.
Qed.

Lemma sum_counts_perm (l1 l2 : list DailyCount) :
  Permutation l1 l2 -> sum_counts l1 = sum_counts l2.
Proof.
  induction 1; simpl; try lia.
Qed.

(** Over keys that are distinct, the indicators of one key add up to 1
    when the key is among them, and to 0 otherwise. *)
Lemma sum_indicator (x : string) (ks : list string) :
  NoDup ks ->
  fold_right (fun k acc => (if String.eqb k x then 1 else 0) + acc) 0 ks
  = if in_dec string_dec x ks then 1 else 0.
Proof.
  induction 1 as [|k ks Hk Hnd IH]; simpl; [reflexivity|].
  rewrite IH.
  destruct (String.eqb_spec k x) as [E|Hne].
  - subst k. destruct (string_dec x x) as [Hy|Hn]; [|congruence].
    destruct (in_dec string_dec x ks); [contradiction | reflexivity].
  - destruct (string_dec k x) as [E|Hn]; [congruence|].
    destruct (in_dec string_dec x ks); reflexivity.
Qed.

Lemma sum_counts_over (ks l : list string) :
  NoDup ks -> incl l ks ->
  fold_right (fun k acc => Z_len (filter (String.eqb k) l) + acc) 0 ks
  = Z_len l.
Proof.
  intros Hnd. induction l as [|x l IH]; intros Hincl.
  - clear. induction ks as [|k ks IH]; [reflexivity|].
    change (Z_len (filter (String.eqb k) (@nil string))
            + fold_right
                (fun k acc => Z_len (filter (String.eqb k) (@nil string)) + acc)
                0 ks = Z_len (@nil string)).
    rewrite IH. reflexivity.
  - assert (Hstep :
      fold_right (fun k acc => Z_len (filter (String.eqb k) (x :: l)) + acc) 0 ks
      = fold_right (fun k acc => (if String.eqb k x then 1 else 0) + acc) 0 ks
        + fold_right (fun k acc => Z_len (filter (String.eqb k) l) + acc) 0 ks).
    { clear. induction ks as [|k ks IH]; cbn [fold_right]; [reflexivity|].
      rewrite IH. cbn [filter].
      destruct (String.eqb k x); unfold Z_len; simpl List.length; lia. }
    rewrite Hstep, IH, (sum_indicator x ks Hnd).
    + destruct (in_dec string_dec x ks) as [_|Hn].
      * unfold Z_len. simpl List.length. lia.
      * exfalso. apply Hn, Hincl. now left.
    + intros y Hy. apply Hincl. now right.
Qed.

Lemma sum_group_count (keys : list string) :
  sum_counts (group_count keys) = Z_len keys.
Proof.
  unfold group_count, sum_counts.
  rewrite <- (sum_counts_over (nodup string_dec keys) keys);
    [|apply NoDup_nodup | intros k Hk; now apply nodup_In].
  induction (nodup string_dec keys) as [|k ks IH]; cbn [map fold_right];
    [reflexivity|].
  rewrite IH. reflexivity.
Qed.

(** X17.  The daily counts of [get_aggregate] are the counts of the turns
    of the user per day: every entry carries the number of turns of the user
    dated that day, at least 1; the days are distinct and in descending
    order; and when the user has turns on at most 30 days, every day with a
    turn has its entry and the counts add up to the number of turns of the
    user. *)
Theorem daily_counts_count_the_turns
  (isoformat date_to_string : Z -> string) (user_id : string) (w : World) :
  exists body,
    get_aggregate isoformat date_to_string user_id w = (Returned (Ok200 body), w)
    /\ Forall (fun d =>
                 dc_count d = turns_dated date_to_string user_id (dc_date d) w
                 /\ 1 <= dc_count d)
         (AggregateResponse.daily_message_counts body)
    /\ StronglySorted
         (fun a b => String.leb (dc_date b) (dc_date a) = true
                     /\ dc_date a <> dc_date b)
         (AggregateResponse.daily_message_counts body)
    /\ ((List.length
           (nodup string_dec
              (map (fun m => date_to_string (Message.created_at m))
                 (filter (fun m => String.eqb (Message.user_id m) user_id)
                    (messages_collection w)))) <= 30)%nat ->
        sum_counts (AggregateResponse.daily_message_counts body)
        = Z_len (filter (fun m => String.eqb (Message.user_id m) user_id)
                   (messages_collection w))
        /\ forall m,
             In m (messages_collection w) -> Message.user_id m = user_id ->
             In (date_to_string (Message.created_at m))
               (map dc_date (AggregateResponse.daily_message_counts body))).
Proof.
  eexists. split; [apply get_aggregate_run|].
  cbn [AggregateResponse.daily_message_counts].
  set (matched := filter (fun m => String.eqb (Message.user_id m) user_id)
                    (messages_collection w)).
  set (days := map (fun m => date_to_string (Message.created_at m)) matched).
  set (sorted := sort_desc later_date (group_count days)).
  assert (Hperm : Permutation sorted (group_count days))
    by apply sort_desc_perm.
  split; [|split].
  - apply Forall_firstn.
    eapply Permutation_Forall; [symmetry; exact Hperm|].
    apply Forall_forall. intros d Hd.
    apply group_count_In in Hd as [Hin Hcount].
    rewrite Hcount. split; [|now apply count_of_member].
    unfold days, matched, turns_dated. apply count_dated.
  - apply StronglySorted_firstn.
    apply (StronglySorted_distinct
             (fun a b => String.leb (dc_date b) (dc_date a) = true) dc_date).
    + apply (sort_desc_sorted later_date later_date_total later_date_trans).
    + eapply Permutation_NoDup;
        [apply Permutation_map; symmetry; exact Hperm|].
      rewrite group_count_dates. apply NoDup_nodup.
  - intros Hfew.
    assert (Hall : firstn 30 sorted = sorted).
    { apply firstn_all2. unfold sorted.
      rewrite sort_desc_length, <- (length_map dc_date), group_count_dates.
      exact Hfew. }
    rewrite Hall. split.
    + rewrite (sum_counts_perm _ _ Hperm), sum_group_count.
      unfold days, Z_len. now rewrite length_map.
    + intros m Hm Hu.
      eapply Permutation_in;
        [apply Permutation_map; symmetry; exact Hperm|].
      rewrite group_count_dates. apply nodup_In.
      unfold days.
      apply (in_map (fun m => date_to_string (Message.created_at m))).
      unfold matched. apply filter_In.
      split; [exact Hm | now apply String.eqb_eq].
Qed.

Lemma daily_counts_count_the_turns_witness :
  exists body,
    get_aggregate (fun _ => "t") sample_day "u" busy_world
    = (Returned (Ok200 body), busy_world)
    /\ sum_counts (AggregateResponse.daily_message_counts body) = 4.
Proof.
  destruct (daily_counts_count_the_turns (fun _ => "t") sample_day "u"
              busy_world) as [body [Hrun [_ [_ Hfew]]]].
  exists body. split; [exact Hrun|].
  apply Hfew. vm_compute. lia.
Defined.

(** The daily counts of the sample: two turns on each of the two days, the
    later day first. *)
Example daily_counts_sample :
  exists body,
    fst (get_aggregate (fun _ => "t") sample_day "u" busy_world)
    = Returned (Ok200 body)
    /\ AggregateResponse.daily_message_counts body
       = [ {| dc_date := "2024-01-02"; dc_count := 2 |};
           {| dc_date := "2024-01-01"; dc_count := 2 |} ].
Proof. eexists. split; [reflexivity|]. vm_compute. reflexivity. Qed.

(** The order in which the store hands over the groups does not matter:
    their days are distinct, so the sort by day settles the answer. *)
Lemma sorted_days_unique (l1 l2 : list DailyCount) :
  StronglySorted (fun a b => String.leb (dc_date b) (dc_date a) = true
                             /\ dc_date a <> dc_date b) l1 ->
  StronglySorted (fun a b => String.leb (dc_date b) (dc_date a) = true
                             /\ dc_date a <> dc_date b) l2 ->
  Permutation l1 l2 -> l1 = l2.
Proof.
  intros H1; revert l2; induction H1 as [|x l1 Hs1 IH Hall1]; intros l2 H2 Hp.
  - apply Permutation_nil in Hp. now subst.
  - destruct H2 as [|y l2 Hs2 Hall2].
    + apply Permutation_sym, Permutation_nil in Hp. discriminate.
    + assert (Exy : x = y).
      { assert (Hx : In x (y :: l2))
          by (eapply Permutation_in; [exact Hp | now left]).
        assert (Hy : In y (x :: l1))
          by (eapply Permutation_in; [symmetry; exact Hp | now left]).
        destruct Hx as [E|Hx]; [now symmetry|].
        destruct Hy as [E|Hy]; [exact E|].
        rewrite Forall_forall in Hall1, Hall2.
        destruct (Hall1 y Hy) as [Hyx Hne], (Hall2 x Hx) as [Hxy _].
        elim Hne. now apply String.leb_antisym. }
      subst y. f_equal. apply IH; [exact Hs2|].
      now apply Permutation_cons_inv with x.
Qed.

Lemma daily_counts_whatever_group_order (days : list string)
  (groups : list DailyCount) :
  Permutation groups (group_count days) ->
  sort_desc later_date groups = sort_desc later_date (group_count days).
Proof.
  intros Hp.
  assert (Hsorted : forall gs,
             Permutation gs (group_count days) ->
             StronglySorted
               (fun a b => String.leb (dc_date b) (dc_date a) = true
                           /\ dc_date a <> dc_date b)
               (sort_desc later_date gs)).
  { intros gs Hgs.
    apply (StronglySorted_distinct
             (fun a b => String.leb (dc_date b) (dc_date a) = true) dc_date).
    - apply (sort_desc_sorted later_date later_date_total later_date_trans).
    - eapply Permutation_NoDup;
        [apply Permutation_map; symmetry;
         etransitivity; [apply sort_desc_perm | exact Hgs]|].
      rewrite group_count_dates. apply NoDup_nodup. }
  apply sorted_days_unique.
  - now apply Hsorted.
  - now apply Hsorted.
  - etransitivity; [apply sort_desc_perm|].
    etransitivity; [exact Hp|]. symmetry. apply sort_desc_perm.
Qed.
